(** * Agent-E: the [compose_email] skill

    A shallow embedding of [ae/core/skills/compose_email.py] and the
    properties of its two functions:

    - [compose_email], the skill entry point, which obtains the current
      page, navigates to Gmail, signs in when a sign-in link is visible,
      opens the compose window and hands over to
    - [do_compose_email], which types recipient, subject and body into the
      focused fields and reports the outcome as a dictionary of two messages.

    A [string] stands for a Python [str] through its UTF-8 encoding: the
    characters of a [string] are the bytes of that encoding.

    The browser, the page-lifecycle manager, the logger and the process
    environment are collaborators of the skill.  They are modelled as a
    [World]: a record of oracles that answer every call of the skill, given
    the history of the calls made so far.  The skill itself is a computation
    in a state-and-exception monad whose state is that history. *)

From Stdlib Require Import String Ascii List Bool ZArith Lia.
Import ListNotations.
Open Scope string_scope.

(** ** Strings *)

(** Python's [needle in hay] on [str]. *)
Fixpoint contains (needle hay : string) : bool :=
  String.prefix needle hay ||
  match hay with
  | EmptyString => false
  | String _ hay' => contains needle hay'
  end.

(** The line feed of the f-string in the generic handler. *)
Definition newline : string := String (ascii_of_nat 10) EmptyString.

(** The double quote inside the password selector. *)
Definition dquote : string := String (ascii_of_nat 34) EmptyString.

(** A byte that continues a code point of UTF-8: its two top bits are 10. *)
Definition is_continuation (c : ascii) : bool :=
  match c with
  | Ascii _ _ _ _ _ _ b6 b7 => b7 && negb b6
  end.

(** Python's [len(s)]: the number of code points. *)
Fixpoint code_points (s : string) : nat :=
  match s with
  | EmptyString => 0
  | String c s' =>
      if is_continuation c then code_points s' else S (code_points s')
  end.

(** Python's [s[:n]]: the first [n] code points, each with the bytes that
    continue it. *)
Fixpoint slice_to (n : nat) (s : string) : string :=
  match s with
  | EmptyString => EmptyString
  | String c s' =>
      if is_continuation c then String c (slice_to n s')
      else match n with
           | 0 => EmptyString
           | S n' => String c (slice_to n' s')
           end
  end.

(** The string is empty or begins a code point. *)
Definition at_boundary (s : string) : bool :=
  match s with
  | EmptyString => true
  | String c _ => negb (is_continuation c)
  end.

(** ** Exceptions and results *)

(** What a call can raise.  The first three are subclasses of Python's
    [Exception]: Playwright's [TimeoutError], [ValueError], and
    [OtherException] for any other subclass.  [OtherBaseException] stands for
    a [BaseException] that is not an [Exception]: [asyncio.CancelledError],
    [KeyboardInterrupt], [SystemExit], [GeneratorExit]. *)
Inductive Exn : Type :=
| PlaywrightTimeoutError (msg : string)
| ValueError (msg : string)
| OtherException (msg : string)
| OtherBaseException (msg : string).

(** Python's [isinstance(e, Exception)]. *)
Definition is_exception (e : Exn) : bool :=
  match e with
  | OtherBaseException _ => false
  | _ => true
  end.

(** Python's [str(e)]. *)
Definition str (e : Exn) : string :=
  match e with
  | PlaywrightTimeoutError msg => msg
  | ValueError msg => msg
  | OtherException msg => msg
  | OtherBaseException msg => msg
  end.

(** What a call does: it returns a value or it raises. *)
Inductive Result (A : Type) : Type :=
| Return (a : A)
| Raise (e : Exn).
Arguments Return {A} a.
Arguments Raise {A} e.

Definition is_return {A} (r : Result A) : bool :=
  match r with Return _ => true | Raise _ => false end.

Definition is_raise {A} (r : Result A) : bool :=
  match r with Return _ => false | Raise _ => true end.

(** ** The collaborators' interface *)

Inductive Page : Type := PageRef (id : nat).

Inductive Level : Type := INFO | ERROR | DEBUG.

Module MessageType.
Inductive t : Type := ACTION | ERROR.
End MessageType.

Inductive Locator : Type :=
| get_by_role (role name : string)
| get_by_label (label : string)
| get_by_text (text : string) (exact : bool).

(** The awaited calls whose value the skill ignores. *)
Inductive Action : Type :=
| take_screenshots (name : string)
| goto (url wait_until : string)
| click (l : Locator)
| fill (l : Locator) (value : string)
| press (l : Locator) (key : string)
| wait_for_selector (selector state : string)
| wait_for_url (url : string) (timeout : Z)
| wait_for (l : Locator) (state : string)
| keyboard_type (text : string)
| keyboard_press (key : string)
| notify_user (message : string) (message_type : MessageType.t).

(** One entry of the history: a call of the skill with the answer it got. *)
Inductive Event : Type :=
| EvLog (lvl : Level) (msg : string)
| EvGetCurrentPage (r : Result (option Page))
| EvUrl (url : string)
| EvIsVisible (l : Locator) (r : Result bool)
| EvEnviron (name : string) (v : option string)
| EvAct (a : Action) (r : Result unit).

(** The history, oldest call first. *)
Definition Trace : Type := list Event.

(** The collaborators.  Every oracle sees the history so far.  Reading
    [page.url], [os.environ.get] and [traceback.format_exc] do not raise. *)
Record World : Type := mkWorld {
  w_get_current_page : Trace -> Result (option Page);
  w_url : Trace -> string;
  w_is_visible : Trace -> Locator -> Result bool;
  w_act : Trace -> Action -> Result unit;
  w_environ : string -> option string;
  w_format_exc : Exn -> string
}.

(** The same collaborators under another process environment. *)
Definition with_environ (env : string -> option string) (w : World) : World :=
  mkWorld (w_get_current_page w) (w_url w) (w_is_visible w) (w_act w)
          env (w_format_exc w).

(** ** The monad of the skill *)

Definition M (A : Type) : Type := World -> Trace -> Trace * Result A.

Definition ret {A} (a : A) : M A := fun _ tr => (tr, Return a).

Definition raise {A} (e : Exn) : M A := fun _ tr => (tr, Raise e).

Definition bind {A B} (m : M A) (k : A -> M B) : M B :=
  fun w tr =>
    match m w tr with
    | (tr', Return a) => k a w tr'
    | (tr', Raise e) => (tr', Raise e)
    end.

(** [try: m  except Exception as e: h e].  The clause takes the instances
    of [Exception]; any other exception passes it and leaves the [try]
    statement as it was raised. *)
Definition try_except {A} (m : M A) (h : Exn -> M A) : M A :=
  fun w tr =>
    match m w tr with
    | (tr', Return a) => (tr', Return a)
    | (tr', Raise e) => if is_exception e then h e w tr' else (tr', Raise e)
    end.

Notation "x <- c1 ;; c2" := (bind c1 (fun x => c2))
  (at level 61, c1 at next level, right associativity).
Notation "c1 ;; c2" := (bind c1 (fun _ => c2))
  (at level 61, right associativity).

Definition logger (lvl : Level) (msg : string) : M unit :=
  fun _ tr => ((tr ++ [EvLog lvl msg])%list, Return tt).

Definition get_current_page : M (option Page) :=
  fun w tr =>
    let r := w_get_current_page w tr in ((tr ++ [EvGetCurrentPage r])%list, r).

Definition page_url : M string :=
  fun w tr => let u := w_url w tr in ((tr ++ [EvUrl u])%list, Return u).

Definition is_visible (l : Locator) : M bool :=
  fun w tr => let r := w_is_visible w tr l in ((tr ++ [EvIsVisible l r])%list, r).

Definition os_environ_get (name : string) : M (option string) :=
  fun w tr => let v := w_environ w name in ((tr ++ [EvEnviron name v])%list, Return v).

Definition await (a : Action) : M unit :=
  fun w tr => let r := w_act w tr a in ((tr ++ [EvAct a r])%list, r).

Definition traceback_format_exc (e : Exn) : M string :=
  fun w tr => (tr, Return (w_format_exc w e)).

(** Running a skill from the empty history. *)
Definition run {A} (m : M A) (w : World) : Trace * Result A := m w [].

(** ** The skill *)

(** The dictionary with the keys ['summary_message'] and
    ['detailed_message'] that [do_compose_email] returns. *)
Record Outcome : Type := mkOutcome {
  summary_message : string;
  detailed_message : string
}.

(** [do_compose_email] (lines 123-184). *)
Definition do_compose_email (page : Page) (recipient subject body : string)
  : M Outcome :=
  try_except
    (logger DEBUG ("Starting do_compose_email with recipient: " ++ recipient
                   ++ ", subject: " ++ subject) ;;
     logger DEBUG "Attempting to fill recipient" ;;
     await (keyboard_type recipient) ;;
     await (keyboard_press "Tab") ;;
     logger DEBUG "Recipient filled and confirmed" ;;
     logger DEBUG "Attempting to fill subject" ;;
     await (keyboard_type subject) ;;
     await (keyboard_press "Tab") ;;
     logger DEBUG "Subject filled successfully" ;;
     logger DEBUG "Attempting to fill email body" ;;
     await (keyboard_type body) ;;
     logger DEBUG "Email body filled successfully" ;;
     let success_msg := "Email composed successfully for " ++ recipient ++ "." in
     logger INFO success_msg ;;
     ret (mkOutcome success_msg
            (success_msg ++ " Subject: '" ++ subject ++ "', Body: '"
             ++ slice_to 50 body ++ "...'")))
    (fun e =>
       let error := "Error composing email for " ++ recipient ++ "." in
       logger ERROR (error ++ " Error details: " ++ str e) ;;
       ret (mkOutcome error (error ++ " Error: " ++ str e))).

Definition sign_in_button : Locator := get_by_role "link" "Sign in".

(** The sign-in branch (lines 60-82), entered when the sign-in link is
    visible.  [not email or not password] holds for a variable that is unset
    and for one that is the empty string. *)
Definition sign_in : M unit :=
  logger INFO "Sign-in button detected. Attempting to sign in..." ;;
  email <- os_environ_get "EMAIL" ;;
  password <- os_environ_get "PASSWORD" ;;
  match email, password with
  | Some (String _ _ as email), Some (String _ _ as password) =>
      await (click sign_in_button) ;;
      await (fill (get_by_label "Email or phone") email) ;;
      await (click (get_by_role "button" "Next")) ;;
      await (wait_for_selector
               ("input[type=" ++ dquote ++ "password" ++ dquote ++ "]")
               "visible") ;;
      let password_field := get_by_label "Enter your password" in
      await (click password_field) ;;
      await (fill password_field password) ;;
      await (press password_field "Enter") ;;
      await (wait_for_url "https://mail.google.com/mail/u/0/" 30000) ;;
      logger INFO "Successfully signed in to Gmail."
  | _, _ =>
      raise (ValueError "EMAIL or PASSWORD environment variables are not set.")
  end.

(** Lines 35-40: the first screenshot, and the navigation to Gmail when the
    page is elsewhere. *)
Definition navigate_to_gmail (function_name : string) : M unit :=
  await (take_screenshots (function_name ++ "_start")) ;;
  url <- page_url ;;
  if negb (contains "mail.google.com" url) then
    logger INFO "Navigating to Gmail..." ;;
    await (goto "https://mail.google.com/" "networkidle") ;;
    url' <- page_url ;;
    logger INFO ("Current URL after navigation: " ++ url')
  else ret tt.

(** Lines 58-84: the check for the sign-in link and its two branches. *)
Definition sign_in_if_required : M unit :=
  visible <- is_visible sign_in_button ;;
  if visible then sign_in
  else logger INFO "No sign-in required. Proceeding with email composition.".

(** Lines 88-97: the click on Compose and the wait for the compose window. *)
Definition open_compose : M unit :=
  await (click (get_by_role "button" "Compose")) ;;
  await (wait_for (get_by_text "New Message" true) "visible") ;;
  logger INFO "Calling do_compose_email function...".

(** Lines 35-97: from the first screenshot to the visible compose window. *)
Definition open_compose_window (function_name : string) : M unit :=
  navigate_to_gmail function_name ;;
  sign_in_if_required ;;
  open_compose.

(** Lines 98-109: the hand-over to [do_compose_email] and the inspection of
    its outcome. *)
Definition fill_and_report (function_name : string) (page : Page)
    (recipient subject body : string) : M string :=
  result <- do_compose_email page recipient subject body ;;
  if contains "Error" (summary_message result) then
    raise (ValueError (detailed_message result))
  else
    let success_message := summary_message result in
    logger INFO success_message ;;
    await (notify_user success_message MessageType.ACTION) ;;
    await (take_screenshots (function_name ++ "_end")) ;;
    ret success_message.

(** Lines 111-121: the two [except] clauses, [except PlaywrightTimeoutError]
    and [except Exception], for an instance [e] of [Exception].
    [raise ... from e] only records [e] as the cause of the new error. *)
Definition on_exception (e : Exn) : M string :=
  match e with
  | PlaywrightTimeoutError _ =>
      let error_message :=
        "Timeout error: " ++ str e
        ++ ". The page might be loading slowly or the element might not be present." in
      logger ERROR error_message ;;
      await (notify_user error_message MessageType.ERROR) ;;
      raise (ValueError error_message)
  | _ =>
      tb <- traceback_format_exc e ;;
      let error_message :=
        "Failed to compose email. Error: " ++ str e ++ newline ++ tb in
      logger ERROR error_message ;;
      await (notify_user error_message MessageType.ERROR) ;;
      raise (ValueError error_message)
  end.

Definition no_active_page : string :=
  "Error: No active page found. OpenURL command opens a new page.".

(** [compose_email] (lines 15-121). *)
Definition compose_email (recipient subject body : string) : M string :=
  logger INFO ("Starting compose_email function with recipient: " ++ recipient
               ++ ", subject: " ++ subject) ;;
  page <- get_current_page ;;
  match page with
  | None =>
      let error_message := no_active_page in
      logger ERROR error_message ;;
      raise (ValueError error_message)
  | Some page =>
      let function_name := "compose_email" in
      try_except
        (open_compose_window function_name ;;
         fill_and_report function_name page recipient subject body)
        on_exception
  end.

(** ** Observations on a history *)

(** The keyboard actions the skill attempted, in order. *)
Fixpoint keyboard_actions (tr : Trace) : list Action :=
  match tr with
  | [] => []
  | EvAct (keyboard_type text) _ :: tr' => keyboard_type text :: keyboard_actions tr'
  | EvAct (keyboard_press key) _ :: tr' => keyboard_press key :: keyboard_actions tr'
  | _ :: tr' => keyboard_actions tr'
  end.

Definition is_type_action (a : Action) : bool :=
  match a with keyboard_type _ => true | _ => false end.

Definition is_tab_action (a : Action) : bool :=
  match a with keyboard_press key => String.eqb key "Tab" | _ => false end.

(** A keyboard action raised. *)
Definition keyboard_raised (ev : Event) : bool :=
  match ev with
  | EvAct (keyboard_type _) r => is_raise r
  | EvAct (keyboard_press _) r => is_raise r
  | _ => false
  end.

(** A notification, of any severity. *)
Definition is_notification (ev : Event) : bool :=
  match ev with EvAct (notify_user _ _) _ => true | _ => false end.

(** A read of the process environment. *)
Definition is_credential_read (ev : Event) : bool :=
  match ev with EvEnviron _ _ => true | _ => false end.

(** A navigation. *)
Definition is_navigation (ev : Event) : bool :=
  match ev with EvAct (goto _ _) _ => true | _ => false end.

(** An interaction with the browser: everything but logging, obtaining the
    page, reading the environment and notifying the user. *)
Definition is_browser_interaction (ev : Event) : bool :=
  match ev with
  | EvUrl _ | EvIsVisible _ _ => true
  | EvAct (notify_user _ _) _ => false
  | EvAct _ _ => true
  | _ => false
  end.

(** A step of the sign-in sequence of lines 67-81: every click other than
    the one on the Compose button, every fill, key press on a locator and
    wait for a selector or a URL. *)
Definition is_sign_in_step (ev : Event) : bool :=
  match ev with
  | EvAct (click (get_by_role role name)) _ =>
      negb (String.eqb role "button" && String.eqb name "Compose")
  | EvAct (click _) _ => true
  | EvAct (fill _ _) _ => true
  | EvAct (press _ _) _ => true
  | EvAct (wait_for_selector _ _) _ => true
  | EvAct (wait_for_url _ _) _ => true
  | _ => false
  end.

(** The sign-in link was seen. *)
Definition sign_in_seen (ev : Event) : bool :=
  match ev with
  | EvIsVisible (get_by_role role name) (Return true) =>
      String.eqb role "link" && String.eqb name "Sign in"
  | _ => false
  end.

(** ** Text of the messages *)

Definition success_summary (recipient : string) : string :=
  "Email composed successfully for " ++ recipient ++ ".".

Definition success_detail (recipient subject body : string) : string :=
  success_summary recipient ++ " Subject: '" ++ subject ++ "', Body: '"
  ++ slice_to 50 body ++ "...'".

Definition error_summary (recipient : string) : string :=
  "Error composing email for " ++ recipient ++ ".".

(** The message the handlers of [compose_email] build for [e]. *)
Definition handler_message (w : World) (e : Exn) : string :=
  match e with
  | PlaywrightTimeoutError _ =>
      "Timeout error: " ++ str e
      ++ ". The page might be loading slowly or the element might not be present."
  | _ => "Failed to compose email. Error: " ++ str e ++ newline ++ w_format_exc w e
  end.

Definition configuration_error : string :=
  "EMAIL or PASSWORD environment variables are not set.".

Definition start_log (recipient subject : string) : Event :=
  EvLog INFO ("Starting compose_email function with recipient: " ++ recipient
              ++ ", subject: " ++ subject).

(** The page and the history with which [compose_email] calls
    [do_compose_email], when the run gets that far. *)
Definition hand_over (recipient subject : string) (w : World)
  : option (Page * Trace) :=
  match get_current_page w [start_log recipient subject] with
  | (tr, Return (Some page)) =>
      match open_compose_window "compose_email" w tr with
      | (tr0, Return _) => Some (page, tr0)
      | _ => None
      end
  | _ => None
  end.

(** ** Notions used in the statements and proofs *)

(** The five keyboard actions of a complete fill. *)
Definition fill_protocol (recipient subject body : string) : list Action :=
  [keyboard_type recipient; keyboard_press "Tab";
   keyboard_type subject; keyboard_press "Tab";
   keyboard_type body].

(** The [try] statement from the sign-in check on, and from the click on
    Compose on, under the handlers of [compose_email]. *)
Definition from_sign_in_check (page : Page) (r s b : string) : M string :=
  try_except
    (sign_in_if_required ;; open_compose ;;
     fill_and_report "compose_email" page r s b)
    on_exception.

Definition from_compose_click (page : Page) (r s b : string) : M string :=
  try_except
    (open_compose ;; fill_and_report "compose_email" page r s b)
    on_exception.

(** The history when the [try] statement is entered. *)
Definition entry_history (r s : string) (page : Page) : Trace :=
  [start_log r s; EvGetCurrentPage (Return (Some page))].

(** What becomes of an exception raised in the [try] statement of
    [compose_email]: the handlers take an instance of [Exception]; any other
    exception passes them and leaves [compose_email] as it was raised. *)
Definition handled (e : Exn) : M string :=
  fun w t => if is_exception e then on_exception e w t else (t, Raise e).

(** [emits P m]: a run of [m] only appends to the history, and every event
    it appends satisfies [P]. *)
Definition emits {A} (P : Event -> bool) (m : M A) : Prop :=
  forall w tr, exists new, fst (m w tr) = (tr ++ new)%list /\ forallb P new = true.

(** The events of the blocks that follow the sign-in check: no URL read, no
    navigation, no visibility check, no read of the environment and no step
    of the sign-in sequence. *)
Definition after_sign_in (ev : Event) : bool :=
  match ev with
  | EvLog _ _ => true
  | EvAct (click (get_by_role role name)) _ =>
      String.eqb role "button" && String.eqb name "Compose"
  | EvAct (wait_for _ _) _ => true
  | EvAct (keyboard_type _) _ => true
  | EvAct (keyboard_press _) _ => true
  | EvAct (notify_user _ _) _ => true
  | EvAct (take_screenshots _) _ => true
  | _ => false
  end.

(** The events of the navigation block. *)
Definition navigating (ev : Event) : bool :=
  match ev with
  | EvLog _ _ | EvUrl _ | EvAct (take_screenshots _) _ => true
  | EvAct (goto url wait_until) _ =>
      String.eqb url "https://mail.google.com/" &&
      String.eqb wait_until "networkidle"
  | _ => false
  end.

(** What follows the navigation block reads no URL and navigates nowhere. *)
Definition beyond_navigation (ev : Event) : bool :=
  match ev with
  | EvUrl _ | EvAct (goto _ _) _ => false
  | _ => true
  end.

(** [env_free m]: [m] runs the same whatever the process environment. *)
Definition env_free {A} (m : M A) : Prop :=
  forall env w tr, m (with_environ env w) tr = m w tr.

(** ** Further notions *)

(** The exception with which a call raised. *)
Definition raised_with (ev : Event) : option Exn :=
  match ev with
  | EvGetCurrentPage (Raise e) => Some e
  | EvIsVisible _ (Raise e) => Some e
  | EvAct _ (Raise e) => Some e
  | _ => None
  end.

Definition is_keyboard_action (a : Action) : bool :=
  match a with keyboard_type _ | keyboard_press _ => true | _ => false end.

(** A notification at severity [ERROR]. *)
Definition is_error_notification (ev : Event) : bool :=
  match ev with
  | EvAct (notify_user _ MessageType.ERROR) _ => true
  | _ => false
  end.

(** Python's [not v] for the value of [os.environ.get]: the variable is
    unset or is the empty string. *)
Definition unset_or_empty (v : option string) : bool :=
  match v with
  | Some (String _ _) => false
  | _ => true
  end.

(** The steps of the sign-in sequence the skill attempted, in order. *)
Fixpoint sign_in_actions (tr : Trace) : list Action :=
  match tr with
  | [] => []
  | EvAct a r :: tr' =>
      if is_sign_in_step (EvAct a r) then a :: sign_in_actions tr'
      else sign_in_actions tr'
  | _ :: tr' => sign_in_actions tr'
  end.

(** A step of the sign-in sequence raised. *)
Definition sign_in_step_raised (ev : Event) : bool :=
  match ev with
  | EvAct _ (Raise _) => is_sign_in_step ev
  | _ => false
  end.

(** The eight steps of a complete sign-in (lines 67-81). *)
Definition sign_in_protocol (email password : string) : list Action :=
  [click sign_in_button;
   fill (get_by_label "Email or phone") email;
   click (get_by_role "button" "Next");
   wait_for_selector ("input[type=" ++ dquote ++ "password" ++ dquote ++ "]")
     "visible";
   click (get_by_label "Enter your password");
   fill (get_by_label "Enter your password") password;
   press (get_by_label "Enter your password") "Enter";
   wait_for_url "https://mail.google.com/mail/u/0/" 30000].

(** Why the body of the [try] statement raised: the history at that point,
    and the exception that leaves the body. *)
Inductive TryFailure (w : World) (r s b : string) : Trace -> Exn -> Prop :=
| call_failed (pre : Trace) (a : Action) (e : Exn) :
    is_keyboard_action a = false ->
    TryFailure w r s b (pre ++ [EvAct a (Raise e)])%list e
| visibility_failed (pre : Trace) (e : Exn) :
    TryFailure w r s b (pre ++ [EvIsVisible sign_in_button (Raise e)])%list e
| credentials_missing (pre : Trace) :
    unset_or_empty (w_environ w "EMAIL")
    || unset_or_empty (w_environ w "PASSWORD") = true ->
    TryFailure w r s b
      (pre ++ [EvEnviron "EMAIL" (w_environ w "EMAIL");
               EvEnviron "PASSWORD" (w_environ w "PASSWORD")])%list
      (ValueError configuration_error)
| typing_failed (pre : Trace) (a : Action) (e : Exn) :
    is_keyboard_action a = true ->
    is_exception e = true ->
    TryFailure w r s b
      (pre ++ [EvAct a (Raise e);
               EvLog ERROR (error_summary r ++ " Error details: " ++ str e)])%list
      (ValueError (error_summary r ++ " Error: " ++ str e))
| typing_interrupted (pre : Trace) (a : Action) (e : Exn) :
    is_keyboard_action a = true ->
    is_exception e = false ->
    TryFailure w r s b (pre ++ [EvAct a (Raise e)])%list e
| marker_in_summary (pre : Trace) :
    contains "Error" (success_summary r) = true ->
    TryFailure w r s b
      (pre ++ [EvAct (keyboard_type b) (Return tt);
               EvLog DEBUG "Email body filled successfully";
               EvLog INFO (success_summary r)])%list
      (ValueError (success_detail r s b)).

(** The events of the sign-in sequence proper: its steps and its log line. *)
Definition sign_in_event (ev : Event) : bool :=
  match ev with
  | EvLog _ _ => true
  | EvAct _ _ => is_sign_in_step ev
  | _ => false
  end.

(** What follows the first step of the sign-in sequence that raised. *)
Fixpoint after_failed_step (tr : Trace) : Trace :=
  match tr with
  | [] => []
  | ev :: tr' => if sign_in_step_raised ev then tr' else after_failed_step tr'
  end.

(** What follows the first keyboard action that raised. *)
Fixpoint after_failed_key (tr : Trace) : Trace :=
  match tr with
  | [] => []
  | ev :: tr' => if keyboard_raised ev then tr' else after_failed_key tr'
  end.

(** The first screenshot, taken. *)
Definition start_screenshot : Event :=
  EvAct (take_screenshots "compose_email_start") (Return tt).

(** The navigation of line 39. *)
Definition to_gmail : Action := goto "https://mail.google.com/" "networkidle".


(** What the handlers do themselves: they log and notify. *)
Definition reporting (ev : Event) : bool :=
  match ev with
  | EvLog _ _ | EvAct (notify_user _ MessageType.ERROR) _ => true
  | _ => false
  end.

(** Anything but a notification at severity [ERROR]. *)
Definition no_error_notification (ev : Event) : bool :=
  negb (is_error_notification ev).

(** A read of the URL or a navigation. *)
Definition is_url_or_navigation (ev : Event) : bool :=
  match ev with
  | EvUrl _ | EvAct (goto _ _) _ => true
  | _ => false
  end.

Definition is_keyboard_event (ev : Event) : bool :=
  match ev with EvAct a _ => is_keyboard_action a | _ => false end.

(** The events of lines 35-97: no typing, no notification, and no
    screenshot but the first. *)
Definition before_typing (ev : Event) : bool :=
  match ev with
  | EvAct (keyboard_type _) _ | EvAct (keyboard_press _) _ => false
  | EvAct (notify_user _ _) _ => false
  | EvAct (take_screenshots name) _ => String.eqb name "compose_email_start"
  | _ => true
  end.

(** The events of [do_compose_email]: log lines and keyboard actions. *)
Definition typing (ev : Event) : bool :=
  match ev with
  | EvLog _ _ => true
  | EvAct a _ => is_keyboard_action a
  | _ => false
  end.

(** The success was not reported: its notification raised, or the last
    screenshot did. *)
Definition late_failure (ev : Event) : bool :=
  match ev with
  | EvAct (notify_user _ MessageType.ACTION) (Raise _) => true
  | EvAct (take_screenshots name) (Raise _) => String.eqb name "compose_email_end"
  | _ => false
  end.

(** The three events with which [open_compose] returns. *)
Definition compose_window_open : Trace :=
  [EvAct (click (get_by_role "button" "Compose")) (Return tt);
   EvAct (wait_for (get_by_text "New Message" true) "visible") (Return tt);
   EvLog INFO "Calling do_compose_email function..."].

(** The three events with which the sign-in branch begins. *)
Definition credential_reads (w : World) : Trace :=
  [EvLog INFO "Sign-in button detected. Attempting to sign in...";
   EvEnviron "EMAIL" (w_environ w "EMAIL");
   EvEnviron "PASSWORD" (w_environ w "PASSWORD")].

(** ** Sample worlds *)

Module Sample.

Definition no_traceback (e : Exn) : string := "Traceback (most recent call last)".

Definition no_environ (name : string) : option string := None.

(** Signed in at Gmail already; every call returns. *)
Definition signed_in : World :=
  mkWorld (fun _ => Return (Some (PageRef 0)))
          (fun _ => "https://mail.google.com/mail/u/0/#inbox")
          (fun _ _ => Return false)
          (fun _ _ => Return tt)
          no_environ no_traceback.

(** No page is open. *)
Definition no_page : World :=
  mkWorld (fun _ => Return None)
          (fun _ => EmptyString)
          (fun _ _ => Return false)
          (fun _ _ => Return tt)
          no_environ no_traceback.

(** Elsewhere, with the sign-in link showing and no credentials set. *)
Definition signed_out : World :=
  mkWorld (fun _ => Return (Some (PageRef 0)))
          (fun _ => "about:blank")
          (fun _ _ => Return true)
          (fun _ _ => Return tt)
          no_environ no_traceback.

(** Signed in, but typing anything raises. *)
Definition keyboard_fails : World :=
  mkWorld (fun _ => Return (Some (PageRef 0)))
          (fun _ => "https://mail.google.com/mail/u/0/#inbox")
          (fun _ _ => Return false)
          (fun _ a => match a with
                      | keyboard_type _ => Raise (OtherException "Target closed")
                      | _ => Return tt
                      end)
          no_environ no_traceback.

End Sample.

Module MoreSamples.

(** The sign-in link shows and both credentials are set; every call returns. *)
Definition credentials_set : World :=
  mkWorld (fun _ => Return (Some (PageRef 0)))
          (fun _ => "https://mail.google.com/")
          (fun _ _ => Return true)
          (fun _ _ => Return tt)
          (fun name => if String.eqb name "EMAIL" then Some "me@x.org"
                       else Some "hunter2")
          Sample.no_traceback.

(** The sign-in link shows and [PASSWORD] is the empty string. *)
Definition empty_password : World :=
  mkWorld (fun _ => Return (Some (PageRef 0)))
          (fun _ => "https://mail.google.com/")
          (fun _ _ => Return true)
          (fun _ _ => Return tt)
          (fun name => if String.eqb name "EMAIL" then Some "me@x.org"
                       else Some EmptyString)
          Sample.no_traceback.

(** The compose window never shows: waiting for it times out. *)
Definition compose_window_times_out : World :=
  mkWorld (fun _ => Return (Some (PageRef 0)))
          (fun _ => "https://mail.google.com/")
          (fun _ _ => Return false)
          (fun _ a => match a with
                      | wait_for _ _ =>
                          Raise (PlaywrightTimeoutError "Timeout 30000ms exceeded.")
                      | _ => Return tt
                      end)
          Sample.no_environ Sample.no_traceback.

(** Typing times out. *)
Definition typing_times_out : World :=
  mkWorld (fun _ => Return (Some (PageRef 0)))
          (fun _ => "https://mail.google.com/")
          (fun _ _ => Return false)
          (fun _ a => match a with
                      | keyboard_type _ =>
                          Raise (PlaywrightTimeoutError "Timeout 30000ms exceeded.")
                      | _ => Return tt
                      end)
          Sample.no_environ Sample.no_traceback.

(** The notification of the success raises. *)
Definition notification_fails : World :=
  mkWorld (fun _ => Return (Some (PageRef 0)))
          (fun _ => "https://mail.google.com/")
          (fun _ _ => Return false)
          (fun _ a => match a with
                      | notify_user _ MessageType.ACTION =>
                          Raise (OtherException "UI is gone")
                      | _ => Return tt
                      end)
          Sample.no_environ Sample.no_traceback.

(** Typing is cancelled: [keyboard.type] raises [asyncio.CancelledError]. *)
Definition typing_cancelled : World :=
  mkWorld (fun _ => Return (Some (PageRef 0)))
          (fun _ => "https://mail.google.com/")
          (fun _ _ => Return false)
          (fun _ a => match a with
                      | keyboard_type _ => Raise (OtherBaseException "CancelledError")
                      | _ => Return tt
                      end)
          Sample.no_environ Sample.no_traceback.



(** The page manager itself raises. *)
Definition manager_fails : World :=
  mkWorld (fun _ => Raise (OtherException "browser not started"))
          (fun _ => EmptyString)
          (fun _ _ => Return false)
          (fun _ _ => Return tt)
          Sample.no_environ Sample.no_traceback.

(** [n] times the letter e with an acute accent, two bytes in UTF-8. *)
Fixpoint e_acute (n : nat) : string :=
  match n with
  | 0 => EmptyString
  | S n' => String (ascii_of_nat 195) (String (ascii_of_nat 169) (e_acute n'))
  end.

End MoreSamples.

(** * Properties *)

(** ** Facts about [contains] *)

Section StringFacts.

Lemma prefix_append (n b : string) : String.prefix n (n ++ b) = true.
Proof.
  induction n as [|c n IH]; simpl.
  - destruct b; reflexivity.
  - destruct (ascii_dec c c) as [_|ne]; [exact IH | now elim ne].
Qed.

Lemma prefix_append_l (n h b : string) :
  String.prefix n h = true -> String.prefix n (h ++ b) = true.
Proof.
  revert h; induction n as [|c n IH]; intros h.
  - intros _. destruct (h ++ b); reflexivity.
  - destruct h as [|d h]; simpl; [discriminate|].
    destruct (ascii_dec c d); [apply IH | discriminate].
Qed.

Lemma contains_prefix (n h : string) :
  String.prefix n h = true -> contains n h = true.
Proof.
  intros H. destruct h; cbn [contains]; rewrite H; reflexivity.
Qed.

Lemma contains_append_r (n a h : string) :
  contains n h = true -> contains n (a ++ h) = true.
Proof.
  intros H. induction a as [|c a IH]; simpl; [exact H|].
  rewrite IH. apply orb_true_r.
Qed.

Lemma contains_append_l (n h b : string) :
  contains n h = true -> contains n (h ++ b) = true.
Proof.
  induction h as [|c h IH]; intros H.
  - simpl in H. rewrite orb_false_r in H.
    apply contains_prefix. now apply (prefix_append_l n EmptyString b).
  - change (contains n (String c h)) with
      (String.prefix n (String c h) || contains n h) in H.
    change (contains n (String c h ++ b)) with
      (String.prefix n (String c h ++ b) || contains n (h ++ b)).
    apply orb_true_iff in H. apply orb_true_iff. destruct H as [H|H].
    + left. now apply prefix_append_l.
    + right. now apply IH.
Qed.

Lemma contains_middle (a n b : string) : contains n (a ++ n ++ b) = true.
Proof.
  apply contains_append_r, contains_prefix, prefix_append.
Qed.

(** Both summaries of [do_compose_email] name the recipient. *)
Lemma success_summary_names (r : string) : contains r (success_summary r) = true.
Proof. apply contains_middle. Qed.


Lemma error_summary_marked (r : string) : contains "Error" (error_summary r) = true.
Proof. reflexivity. Qed.

Lemma success_summary_marked (r : string) :
  contains "Error" r = true -> contains "Error" (success_summary r) = true.
Proof.
  intros H. unfold success_summary.
  now apply contains_append_r, contains_append_l.
Qed.

End StringFacts.

(** ** Symbolic execution *)

(** From here on [++] appends histories. *)
Local Open Scope list_scope.

Ltac unfold_skill :=
  cbv beta iota zeta delta
    [run compose_email fill_and_report open_compose_window navigate_to_gmail
     sign_in_if_required open_compose sign_in on_exception handled
     do_compose_email hand_over bind try_except ret raise logger await
     get_current_page page_url is_visible os_environ_get traceback_format_exc].

(** Splits on the answer of the first awaited action still undecided. *)
Ltac step_action :=
  match goal with
  | |- context [match w_act ?w ?t ?a with _ => _ end] =>
      let e := fresh "e" in
      let E := fresh "E" in
      destruct (w_act w t a) as [[]|e] eqn:E; cbv beta iota
  end.

(** Splits on whether the exception at an [except] clause is an instance of
    [Exception]. *)
Ltac step_except :=
  match goal with
  | |- context [if is_exception ?e then _ else _] =>
      let X := fresh "X" in
      destruct (is_exception e) eqn:X; cbv beta iota
  end.

Ltac norm_trace := repeat rewrite <- app_assoc; cbn [app].

(** The handlers of [compose_email] log and notify, and then raise; the
    error is the new [ValueError] unless the notification itself raised. *)
Lemma on_exception_run (w : World) (e : Exn) (tr : Trace) :
  on_exception e w tr =
  let m := handler_message w e in
  let rn := w_act w (tr ++ [EvLog ERROR m]) (notify_user m MessageType.ERROR) in
  (tr ++ [EvLog ERROR m; EvAct (notify_user m MessageType.ERROR) rn],
   match rn with Return _ => Raise (ValueError m) | Raise e' => Raise e' end).
Proof.
  destruct e; unfold_skill; cbv beta iota zeta; cbn [handler_message str];
    step_action; norm_trace; reflexivity.
Qed.

(** An instance of [Exception] goes to the handlers. *)
Lemma handled_exception (w : World) (e : Exn) (tr : Trace) :
  is_exception e = true -> handled e w tr = on_exception e w tr.
Proof. unfold handled. now intros ->. Qed.

(** ** The field-fill sequencer *)

(** Splits a closed history into all but its last [n] events and those. *)
Ltac cut_last n :=
  match goal with
  | |- exists pre, ?l = _ /\ _ => exists (firstn (length l - n) l)
  | |- exists pre, ?l = _ => exists (firstn (length l - n) l)
  | |- exists pre, exists _, ?l = _ /\ _ => exists (firstn (length l - n) l)
  | |- exists pre, exists _, exists _, ?l = _ /\ _ => exists (firstn (length l - n) l)
  end;
  cbn [length firstn Nat.sub].

(** How [do_compose_email] ends.  It returns the success outcome after the
    five keyboard actions; it returns the error outcome right after the error
    log line that follows a keyboard action raising an [Exception]; and it
    raises, right after the keyboard action, what that action raised when it
    is no [Exception]. *)
Lemma do_compose_email_ends (w : World) (page : Page) (r s b : string) (tr : Trace) :
  exists new out,
    do_compose_email page r s b w tr = (tr ++ new, out) /\
    forallb typing new = true /\
    (exists rest, keyboard_actions new ++ rest = fill_protocol r s b) /\
    keyboard_actions (after_failed_key new) = [] /\
    match out with
    | Return res =>
        if existsb keyboard_raised new
        then exists pre a e,
               new = pre ++ [EvAct a (Raise e);
                             EvLog ERROR (error_summary r ++ " Error details: "
                                          ++ str e)%string] /\
               is_keyboard_action a = true /\
               is_exception e = true /\
               existsb keyboard_raised pre = false /\
               res = mkOutcome (error_summary r)
                               (error_summary r ++ " Error: " ++ str e)%string
        else keyboard_actions new = fill_protocol r s b /\
             (exists pre,
                 new = pre ++ [EvAct (keyboard_type b) (Return tt);
                               EvLog DEBUG "Email body filled successfully";
                               EvLog INFO (success_summary r)]) /\
             res = mkOutcome (success_summary r) (success_detail r s b)
    | Raise e =>
        is_exception e = false /\
        exists pre a,
          new = pre ++ [EvAct a (Raise e)] /\
          is_keyboard_action a = true /\
          existsb keyboard_raised pre = false
    end.
Proof.
  unfold_skill.
  repeat step_action; try step_except; norm_trace; do 2 eexists;
    (split; [reflexivity|]); (split; [reflexivity|]);
    (split; [eexists; reflexivity|]); (split; [reflexivity|]); cbn [existsb keyboard_raised is_raise orb].
  all: try (split; [reflexivity|]; split; [cut_last 3; reflexivity | reflexivity]).
  all: try (cut_last 2; do 2 eexists; repeat split; assumption).
  all: split; [assumption|]; cut_last 1; eexists; repeat split.
Qed.

Lemma keyboard_raised_event (a : Action) (e : Exn) :
  is_keyboard_action a = true -> keyboard_raised (EvAct a (Raise e)) = true.
Proof. destruct a; (discriminate || reflexivity). Qed.


Lemma keyboard_raised_last (pre : Trace) (a : Action) (e : Exn) :
  is_keyboard_action a = true ->
  existsb keyboard_raised (pre ++ [EvAct a (Raise e)]) = true.
Proof.
  intros Ha. rewrite existsb_app. cbn [existsb].
  rewrite (keyboard_raised_event a e Ha). apply orb_true_r.
Qed.




(** C4, as the specification states it, fails when a keyboard action raises:
    here typing the recipient raises, and that one action is all the
    sequencer attempts. *)
Lemma fill_protocol_cut_short :
  let acts := keyboard_actions
                (fst (do_compose_email (PageRef 0) "a@b.com" "Hi" "Hello there"
                        Sample.keyboard_fails [])) in
  acts = [keyboard_type "a@b.com"] /\
  List.length (filter is_type_action acts) <> 3 /\
  List.length (filter is_tab_action acts) <> 2 /\
  acts <> fill_protocol "a@b.com" "Hi" "Hello there".
Proof.
  vm_compute. repeat split; discriminate.
Qed.

(** C4, amended.  The keyboard actions of [do_compose_email] are an initial
    segment of: type recipient, Tab, type subject, Tab, type body; and it
    stops at the first one that raises: what follows a keyboard action that
    raised holds no keyboard action.  When no keyboard action raises they are
    exactly these five, in this order: three type actions and two Tab
    presses, the last action being the typing of the body. *)
Theorem do_compose_email_fill_protocol :
  forall (w : World) (page : Page) (recipient subject body : string) (tr : Trace),
  exists new,
    fst (do_compose_email page recipient subject body w tr) = tr ++ new /\
    (exists rest,
        keyboard_actions new ++ rest = fill_protocol recipient subject body) /\
    keyboard_actions (after_failed_key new) = [] /\
    (existsb keyboard_raised new = false ->
     keyboard_actions new =
       [keyboard_type recipient; keyboard_press "Tab";
        keyboard_type subject; keyboard_press "Tab";
        keyboard_type body] /\
     List.length (filter is_type_action (keyboard_actions new)) = 3 /\
     List.length (filter is_tab_action (keyboard_actions new)) = 2).
Proof.
  intros w page r s b tr.
  destruct (do_compose_email_ends w page r s b tr)
    as (new & out & Hrun & _ & Hprefix & Hstop & Hout).
  exists new. rewrite Hrun. split; [reflexivity|]. split; [exact Hprefix|].
  split; [exact Hstop|].
  intros Hquiet.
  assert (Hacts : keyboard_actions new = fill_protocol r s b).
  { destruct out as [res|e].
    - rewrite Hquiet in Hout. apply Hout.
    - destruct Hout as (_ & pre & a & -> & Ha & _).
      rewrite (keyboard_raised_last pre a e Ha) in Hquiet. discriminate. }
  rewrite Hacts. repeat split.
Qed.

Lemma do_compose_email_fill_protocol_witness :
  keyboard_actions
    (fst (do_compose_email (PageRef 0) "a@b.com" "Hi" "Hello there"
            Sample.signed_in [])) =
  [keyboard_type "a@b.com"; keyboard_press "Tab";
   keyboard_type "Hi"; keyboard_press "Tab"; keyboard_type "Hello there"].
Proof.
  destruct (do_compose_email_fill_protocol Sample.signed_in (PageRef 0)
              "a@b.com" "Hi" "Hello there" []) as (new & Hrun & _ & _ & Hfull).
  cbn [app] in Hrun. rewrite Hrun. apply Hfull.
  assert (Hnew : new = fst (do_compose_email (PageRef 0) "a@b.com" "Hi"
                             "Hello there" Sample.signed_in []))
    by (symmetry; exact Hrun).
  rewrite Hnew. reflexivity.
Defined.

(** ** The entry point *)

(** The handlers never return: what leaves them is raised. *)
Lemma handled_never_returns (w : World) (e : Exn) (t t' : Trace) (msg : string) :
  handled e w t <> (t', Return msg).
Proof.
  unfold handled. destruct (is_exception e); [|discriminate].
  rewrite on_exception_run. cbv zeta.
  destruct (w_act w (t ++ _) (notify_user _ _)); discriminate.
Qed.

(** [compose_email], one level down: the guard, the [try] block in its two
    halves, and the handlers. *)
Lemma compose_email_run (w : World) (r s b : string) :
  run (compose_email r s b) w =
  match w_get_current_page w [start_log r s] with
  | Raise e => ([start_log r s; EvGetCurrentPage (Raise e)], Raise e)
  | Return None =>
      ([start_log r s; EvGetCurrentPage (Return None); EvLog ERROR no_active_page],
       Raise (ValueError no_active_page))
  | Return (Some page) =>
      match open_compose_window "compose_email" w
              [start_log r s; EvGetCurrentPage (Return (Some page))] with
      | (tr0, Raise e) => handled e w tr0
      | (tr0, Return _) =>
          match fill_and_report "compose_email" page r s b w tr0 with
          | (tr1, Return msg) => (tr1, Return msg)
          | (tr1, Raise e) => handled e w tr1
          end
      end
  end.
Proof.
  cbv beta iota zeta delta
    [run compose_email bind try_except logger get_current_page raise start_log
     handled].
  cbn [app].
  destruct (w_get_current_page w _) as [[page|]|e]; try reflexivity.
  destruct (open_compose_window _ w _) as [tr0 [[]|e]]; reflexivity.
Qed.

(** [fill_and_report] hands the outcome of [do_compose_email] on when its
    summary has no marker, and raises its detail otherwise. *)
Lemma fill_and_report_run (w : World) (fn : string) (page : Page)
    (r s b : string) (tr tr1 : Trace) (res : Outcome) :
  do_compose_email page r s b w tr = (tr1, Return res) ->
  fill_and_report fn page r s b w tr =
  if contains "Error" (summary_message res)
  then (tr1, Raise (ValueError (detailed_message res)))
  else
    let msg := summary_message res in
    let t1 := tr1 ++ [EvLog INFO msg] in
    let notify := notify_user msg MessageType.ACTION in
    match w_act w t1 notify with
    | Raise e => (t1 ++ [EvAct notify (Raise e)], Raise e)
    | Return _ =>
        let t2 := t1 ++ [EvAct notify (Return tt)] in
        let shot := take_screenshots (fn ++ "_end")%string in
        match w_act w t2 shot with
        | Raise e => (t2 ++ [EvAct shot (Raise e)], Raise e)
        | Return _ => (t2 ++ [EvAct shot (Return tt)], Return msg)
        end
    end.
Proof.
  intros Hrun.
  cbv beta iota zeta delta [fill_and_report bind].
  rewrite Hrun. cbv beta iota.
  destruct (contains "Error" (summary_message res)); [reflexivity|].
  cbv beta iota zeta delta [bind logger await ret].
  repeat step_action; reflexivity.
Qed.

(** When [do_compose_email] raises, so does [fill_and_report]. *)
Lemma fill_and_report_interrupted (w : World) (fn : string) (page : Page)
    (r s b : string) (tr tr1 : Trace) (e : Exn) :
  do_compose_email page r s b w tr = (tr1, Raise e) ->
  fill_and_report fn page r s b w tr = (tr1, Raise e).
Proof.
  intros Hrun. cbv beta iota zeta delta [fill_and_report bind].
  now rewrite Hrun.
Qed.

(** Whatever [fill_and_report] returns is the success summary, and it has
    no marker. *)
Lemma fill_and_report_returns (w : World) (fn : string) (page : Page)
    (r s b : string) (tr tr' : Trace) (msg : string) :
  fill_and_report fn page r s b w tr = (tr', Return msg) ->
  msg = success_summary r /\ contains "Error" msg = false.
Proof.
  destruct (do_compose_email_ends w page r s b tr)
    as (new & [res|e] & Hrun & _ & _ & _ & Hout).
  2: { rewrite (fill_and_report_interrupted w fn page r s b tr _ e Hrun).
       discriminate. }
  rewrite (fill_and_report_run w fn page r s b tr _ res Hrun).
  destruct (contains "Error" (summary_message res)) eqn:Hmark; [discriminate|].
  cbv zeta. repeat step_action; try discriminate.
  intros H. injection H as _ <-.
  destruct (existsb keyboard_raised new).
  - destruct Hout as (pre & a & e & _ & _ & _ & _ & ->).
    cbn [summary_message] in Hmark. rewrite error_summary_marked in Hmark.
    discriminate.
  - destruct Hout as (_ & _ & ->). cbn [summary_message] in *. now split.
Qed.

(** Whatever [compose_email] returns is the success summary, and it has no
    marker. *)
Lemma compose_email_returns (w : World) (r s b msg : string) :
  snd (run (compose_email r s b) w) = Return msg ->
  msg = success_summary r /\ contains "Error" msg = false.
Proof.
  rewrite compose_email_run.
  destruct (w_get_current_page w _) as [[page|]|e]; try discriminate.
  assert (Hhandled : forall e t, snd (handled e w t) <> Return msg).
  { intros e t H. apply (handled_never_returns w e t (fst (handled e w t)) msg).
    rewrite <- H. apply surjective_pairing. }
  destruct (open_compose_window _ w _) as [tr0 [[]|e]].
  - destruct (fill_and_report _ page r s b w tr0) as [tr1 [m|e]] eqn:Hfill.
    + intros H. injection H as <-. eapply fill_and_report_returns, Hfill.
    + intros H. now apply Hhandled in H.
  - intros H. now apply Hhandled in H.
Qed.

(** An outcome with a marker in its summary, handed back to
    [compose_email], ends the run in the generic handler. *)
Lemma escalation_run (w : World) (r s b : string) (page : Page)
    (tr0 tr1 : Trace) (res : Outcome) :
  hand_over r s w = Some (page, tr0) ->
  do_compose_email page r s b w tr0 = (tr1, Return res) ->
  contains "Error" (summary_message res) = true ->
  let m := handler_message w (ValueError (detailed_message res)) in
  exists rn,
    run (compose_email r s b) w =
    (tr1 ++ [EvLog ERROR m; EvAct (notify_user m MessageType.ERROR) rn],
     match rn with
     | Return _ => Raise (ValueError m)
     | Raise e => Raise e
     end).
Proof.
  intros Hover Hrun Hmark m.
  rewrite compose_email_run. unfold hand_over in Hover.
  cbv beta iota zeta delta [get_current_page start_log] in Hover.
  cbn [app] in Hover. fold (start_log r s) in Hover.
  destruct (w_get_current_page w _) as [[page'|]|e]; try discriminate.
  destruct (open_compose_window _ w _) as [tr0' [[]|e]]; try discriminate.
  injection Hover as -> ->.
  rewrite (fill_and_report_run w _ page r s b tr0 tr1 res Hrun), Hmark.
  rewrite handled_exception by reflexivity.
  rewrite on_exception_run. cbv zeta. fold m.
  eexists. reflexivity.
Qed.

(** C1.  An invocation of [compose_email] either returns or raises, never
    both; what it returns is the success summary, free of the marker
    [Error]; and whenever [do_compose_email] hands back an outcome whose
    summary contains the marker, [compose_email] raises: it logs and notifies
    the failure message built around the detailed message of that outcome,
    and raises a [ValueError] with that message (the exception of the
    notification, should the notification itself raise). *)
Theorem compose_email_returns_or_escalates :
  forall (w : World) (recipient subject body : string),
    let out := snd (run (compose_email recipient subject body) w) in
    is_return out = negb (is_raise out) /\
    (forall msg, out = Return msg ->
       msg = success_summary recipient /\ contains "Error" msg = false) /\
    (forall page tr0 tr1 res,
       hand_over recipient subject w = Some (page, tr0) ->
       do_compose_email page recipient subject body w tr0 = (tr1, Return res) ->
       contains "Error" (summary_message res) = true ->
       let m := handler_message w (ValueError (detailed_message res)) in
       contains (detailed_message res) m = true /\
       exists rn,
         run (compose_email recipient subject body) w =
         (tr1 ++ [EvLog ERROR m; EvAct (notify_user m MessageType.ERROR) rn],
          match rn with
          | Return _ => Raise (ValueError m)
          | Raise e => Raise e
          end)).
Proof.
  intros w r s b out. split; [destruct out; reflexivity|]. split.
  - subst out. apply compose_email_returns.
  - intros page tr0 tr1 res Hover Hrun Hmark m. split.
    + subst m. cbn [handler_message str]. apply contains_append_r.
      apply contains_prefix, prefix_append.
    + exact (escalation_run w r s b page tr0 tr1 res Hover Hrun Hmark).
Qed.

Lemma compose_email_returns_or_escalates_witness :
  exists m,
    snd (run (compose_email "a@b.com" "Hi" "Hello there") Sample.keyboard_fails)
    = Raise (ValueError m) /\
    contains "Error composing email for a@b.com. Error: Target closed" m = true.
Proof.
  destruct (compose_email_returns_or_escalates Sample.keyboard_fails
              "a@b.com" "Hi" "Hello there") as (_ & _ & H).
  edestruct H as (Hcarried & rn & Hrun).
  - vm_compute. reflexivity.
  - vm_compute. reflexivity.
  - reflexivity.
  - eexists. split; [|exact Hcarried].
    rewrite Hrun. vm_compute in Hrun. injection Hrun as Hrn _.
    rewrite <- Hrn. reflexivity.
Defined.

(** ** Laws of the monad *)

(** A [try] block runs its first statement, and the rest under the same
    handler. *)
Lemma try_except_bind {A B} (m : M A) (k : A -> M B) (h : Exn -> M B)
    (w : World) (tr : Trace) :
  try_except (bind m k) h w tr =
  match m w tr with
  | (t, Return a) => try_except (k a) h w t
  | (t, Raise e) => if is_exception e then h e w t else (t, Raise e)
  end.
Proof.
  unfold try_except, bind. destruct (m w tr) as [t [a|e]]; reflexivity.
Qed.

(** ** What a computation adds to the history *)

Section Emits.

Variable P : Event -> bool.

Lemma emits_ret {A} (a : A) : emits P (ret a).
Proof. intros w tr. exists []. now rewrite app_nil_r. Qed.

Lemma emits_raise {A} (e : Exn) : emits P (@raise A e).
Proof. intros w tr. exists []. now rewrite app_nil_r. Qed.

Lemma emits_traceback (e : Exn) : emits P (traceback_format_exc e).
Proof. intros w tr. exists []. now rewrite app_nil_r. Qed.

Lemma emits_one (ev : Event) : P ev = true -> forallb P [ev] = true.
Proof. intros H. cbn. now rewrite H. Qed.

Lemma emits_logger (lvl : Level) (msg : string) :
  P (EvLog lvl msg) = true -> emits P (logger lvl msg).
Proof. intros H w tr. eexists. split; [reflexivity | now apply emits_one]. Qed.

Lemma emits_await (a : Action) :
  (forall r, P (EvAct a r) = true) -> emits P (await a).
Proof. intros H w tr. eexists. split; [reflexivity | apply emits_one, H]. Qed.

Lemma emits_get_current_page :
  (forall r, P (EvGetCurrentPage r) = true) -> emits P get_current_page.
Proof. intros H w tr. eexists. split; [reflexivity | apply emits_one, H]. Qed.

Lemma emits_page_url : (forall u, P (EvUrl u) = true) -> emits P page_url.
Proof. intros H w tr. eexists. split; [reflexivity | apply emits_one, H]. Qed.

Lemma emits_is_visible (l : Locator) :
  (forall r, P (EvIsVisible l r) = true) -> emits P (is_visible l).
Proof. intros H w tr. eexists. split; [reflexivity | apply emits_one, H]. Qed.

Lemma emits_os_environ_get (name : string) :
  (forall v, P (EvEnviron name v) = true) -> emits P (os_environ_get name).
Proof. intros H w tr. eexists. split; [reflexivity | apply emits_one, H]. Qed.

Lemma emits_bind {A B} (m : M A) (k : A -> M B) :
  emits P m -> (forall a, emits P (k a)) -> emits P (bind m k).
Proof.
  intros Hm Hk w tr. unfold bind.
  destruct (Hm w tr) as (n1 & E1 & F1).
  destruct (m w tr) as [t [a|e]]; cbn [fst] in E1; subst t.
  - destruct (Hk a w (tr ++ n1)) as (n2 & E2 & F2).
    exists (n1 ++ n2). rewrite E2, app_assoc, forallb_app, F1, F2. now split.
  - now exists n1.
Qed.

Lemma emits_try_except {A} (m : M A) (h : Exn -> M A) :
  emits P m -> (forall e, emits P (h e)) -> emits P (try_except m h).
Proof.
  intros Hm Hh w tr. unfold try_except.
  destruct (Hm w tr) as (n1 & E1 & F1).
  destruct (m w tr) as [t [a|e]]; cbn [fst] in E1; subst t.
  - now exists n1.
  - destruct (is_exception e); [|now exists n1].
    destruct (Hh e w (tr ++ n1)) as (n2 & E2 & F2).
    exists (n1 ++ n2). rewrite E2, app_assoc, forallb_app, F1, F2. now split.
Qed.

End Emits.

(** Decomposes a goal [emits P m] along the structure of [m]; what is left
    are the conditions on the single events. *)
Ltac emits_structure :=
  repeat first
    [ apply emits_ret
    | apply emits_raise
    | apply emits_traceback
    | apply emits_bind; [|intros ?]
    | apply emits_try_except; [|intros ?]
    | apply emits_logger
    | apply emits_await; intros ?
    | apply emits_get_current_page; intros ?
    | apply emits_page_url; intros ?
    | apply emits_is_visible; intros ?
    | apply emits_os_environ_get; intros ?
    | match goal with
      | |- emits _ (if ?c then _ else _) => destruct c
      | |- emits _ (match ?x with _ => _ end) => destruct x
      end ].

Lemma emits_open_compose : emits after_sign_in open_compose.
Proof. unfold open_compose. emits_structure; reflexivity. Qed.

Lemma emits_do_compose_email (page : Page) (r s b : string) :
  emits after_sign_in (do_compose_email page r s b).
Proof. unfold do_compose_email. emits_structure; reflexivity. Qed.

Lemma emits_fill_and_report (fn : string) (page : Page) (r s b : string) :
  emits after_sign_in (fill_and_report fn page r s b).
Proof.
  unfold fill_and_report.
  apply emits_bind; [apply emits_do_compose_email | intros res].
  emits_structure; reflexivity.
Qed.

Lemma emits_on_exception (e : Exn) : emits after_sign_in (on_exception e).
Proof. unfold on_exception. emits_structure; reflexivity. Qed.

(** What the handlers add when they take an exception, and nothing when it
    passes them. *)
Lemma emits_handled (P : Event -> bool) (e : Exn) :
  emits P (on_exception e) -> emits P (handled e).
Proof.
  intros H w t. unfold handled. destruct (is_exception e); [apply H|].
  exists []. now rewrite app_nil_r.
Qed.

(** ** The blocks of the [try] statement *)

Lemma compose_email_blocks (w : World) (r s b : string) :
  run (compose_email r s b) w =
  match w_get_current_page w [start_log r s] with
  | Raise e => ([start_log r s; EvGetCurrentPage (Raise e)], Raise e)
  | Return None =>
      ([start_log r s; EvGetCurrentPage (Return None); EvLog ERROR no_active_page],
       Raise (ValueError no_active_page))
  | Return (Some page) =>
      match navigate_to_gmail "compose_email" w (entry_history r s page) with
      | (t1, Raise e) => handled e w t1
      | (t1, Return _) => from_sign_in_check page r s b w t1
      end
  end.
Proof.
  rewrite compose_email_run.
  destruct (w_get_current_page w _) as [[page|]|e]; try reflexivity.
  fold (entry_history r s page).
  cbv beta iota zeta delta
    [open_compose_window from_sign_in_check bind try_except handled].
  destruct (navigate_to_gmail _ w _) as [t1 [[]|e]]; [|reflexivity].
  destruct (sign_in_if_required w t1) as [t2 [[]|e]]; [|reflexivity].
  destruct (open_compose w t2) as [t3 [[]|e]]; reflexivity.
Qed.

Lemma from_sign_in_check_run (w : World) (page : Page) (r s b : string)
    (tr : Trace) :
  from_sign_in_check page r s b w tr =
  match sign_in_if_required w tr with
  | (t2, Raise e) => handled e w t2
  | (t2, Return _) => from_compose_click page r s b w t2
  end.
Proof.
  unfold from_sign_in_check. rewrite try_except_bind. reflexivity.
Qed.

Lemma emits_from_compose_click (page : Page) (r s b : string) :
  emits after_sign_in (from_compose_click page r s b).
Proof.
  apply emits_try_except; [|apply emits_on_exception].
  apply emits_bind; [apply emits_open_compose | intros _].
  apply emits_fill_and_report.
Qed.

Lemma emits_navigate_to_gmail (fn : string) :
  emits navigating (navigate_to_gmail fn).
Proof. unfold navigate_to_gmail. emits_structure; reflexivity. Qed.

Lemma emits_beyond_on_exception (e : Exn) :
  emits beyond_navigation (on_exception e).
Proof. unfold on_exception. emits_structure; reflexivity. Qed.

Lemma emits_beyond_sign_in_check (page : Page) (r s b : string) :
  emits beyond_navigation (from_sign_in_check page r s b).
Proof.
  unfold from_sign_in_check, sign_in_if_required, sign_in, open_compose,
    fill_and_report, do_compose_email.
  emits_structure; try reflexivity; apply emits_beyond_on_exception.
Qed.

(** ** Lists of events *)

Lemma forallb_existsb (P Q : Event -> bool) (l : Trace) :
  (forall ev, P ev = true -> Q ev = false) ->
  forallb P l = true -> existsb Q l = false.
Proof.
  intros HPQ. induction l as [|ev l IH]; [reflexivity|].
  cbn. intros H. apply andb_true_iff in H as [Hev Hl].
  now rewrite (HPQ ev Hev), (IH Hl).
Qed.


(** ** The precondition and the navigation *)

(** C7.  When [get_current_page] answers [None], [compose_email] logs the
    error and raises the [ValueError] [No active page found] at once: the
    history holds the opening log line, the call for the page and the error
    log line, hence no navigation, no screenshot and no other interaction
    with the browser. *)
Theorem no_active_page_is_fatal :
  forall (w : World) (recipient subject body : string),
    w_get_current_page w [start_log recipient subject] = Return None ->
    let tr := fst (run (compose_email recipient subject body) w) in
    snd (run (compose_email recipient subject body) w) =
      Raise (ValueError
               "Error: No active page found. OpenURL command opens a new page.") /\
    tr = [start_log recipient subject; EvGetCurrentPage (Return None);
          EvLog ERROR no_active_page] /\
    existsb is_navigation tr = false /\
    existsb is_browser_interaction tr = false.
Proof.
  intros w r s b Hnone tr. subst tr.
  rewrite compose_email_blocks, Hnone. repeat split.
Qed.

Lemma no_active_page_is_fatal_witness :
  run (compose_email "a@b.com" "Hi" "Hello there") Sample.no_page =
  ([start_log "a@b.com" "Hi"; EvGetCurrentPage (Return None);
    EvLog ERROR no_active_page],
   Raise (ValueError
            "Error: No active page found. OpenURL command opens a new page.")).
Proof.
  destruct (no_active_page_is_fatal Sample.no_page "a@b.com" "Hi" "Hello there"
              eq_refl) as (Hout & Htr & _).
  rewrite (surjective_pairing (run _ _)), Hout, Htr. reflexivity.
Defined.

(** The navigation block, step by step. *)
Lemma navigate_to_gmail_exact (w : World) (tr : Trace) :
  navigate_to_gmail "compose_email" w tr =
  match w_act w tr (take_screenshots "compose_email_start") with
  | Raise e => (tr ++ [EvAct (take_screenshots "compose_email_start") (Raise e)], Raise e)
  | Return _ =>
      let t1 := tr ++ [start_screenshot] in
      let url := w_url w t1 in
      if contains "mail.google.com" url then (t1 ++ [EvUrl url], Return tt)
      else
        let t2 := t1 ++ [EvUrl url; EvLog INFO "Navigating to Gmail..."] in
        match w_act w t2 to_gmail with
        | Raise e => (t2 ++ [EvAct to_gmail (Raise e)], Raise e)
        | Return _ =>
            let t3 := t2 ++ [EvAct to_gmail (Return tt)] in
            (t3 ++ [EvUrl (w_url w t3);
                    EvLog INFO ("Current URL after navigation: " ++ w_url w t3)],
             Return tt)
        end
  end.
Proof.
  unfold_skill. cbn [String.append]. unfold start_screenshot, to_gmail.
  step_action; [|reflexivity].
  destruct (contains "mail.google.com" (w_url w _)); cbn [negb]; cbv beta iota.
  - reflexivity.
  - norm_trace. step_action; norm_trace; reflexivity.
Qed.

Lemma emits_reporting (e : Exn) : emits reporting (handled e).
Proof.
  apply emits_handled. unfold on_exception. emits_structure; reflexivity.
Qed.





(** ** The sign-in check *)

Lemma sign_in_if_required_run (w : World) (tr : Trace) :
  sign_in_if_required w tr =
  match w_is_visible w tr sign_in_button with
  | Raise e => (tr ++ [EvIsVisible sign_in_button (Raise e)], Raise e)
  | Return false =>
      (tr ++ [EvIsVisible sign_in_button (Return false);
              EvLog INFO "No sign-in required. Proceeding with email composition."],
       Return tt)
  | Return true => sign_in w (tr ++ [EvIsVisible sign_in_button (Return true)])
  end.
Proof.
  cbv beta iota zeta delta [sign_in_if_required bind is_visible logger].
  destruct (w_is_visible w tr sign_in_button) as [[|]|e]; norm_trace; reflexivity.
Qed.

(** With a credential unset, the sign-in branch reads both variables and
    raises before it touches the page. *)
Lemma sign_in_unset (w : World) (tr : Trace) :
  w_environ w "EMAIL" = None \/ w_environ w "PASSWORD" = None ->
  sign_in w tr =
  (tr ++ [EvLog INFO "Sign-in button detected. Attempting to sign in...";
          EvEnviron "EMAIL" (w_environ w "EMAIL");
          EvEnviron "PASSWORD" (w_environ w "PASSWORD")],
   Raise (ValueError configuration_error)).
Proof.
  intros Hunset. cbv beta iota zeta delta [sign_in bind logger os_environ_get raise].
  norm_trace.
  destruct (w_environ w "EMAIL") as [[|c email]|];
    destruct (w_environ w "PASSWORD") as [[|c' password]|];
    try reflexivity; destruct Hunset; discriminate.
Qed.

Lemma emits_sign_in : emits (fun _ => true) sign_in.
Proof. unfold sign_in. emits_structure; reflexivity. Qed.

Lemma navigating_before_sign_in (ev : Event) :
  navigating ev = true ->
  sign_in_seen ev = false /\ is_sign_in_step ev = false /\
  is_credential_read ev = false.
Proof. destruct ev as [| | | | |[] ?]; (discriminate || now repeat split). Qed.

Lemma after_sign_in_quiet (ev : Event) :
  after_sign_in ev = true ->
  sign_in_seen ev = false /\ is_sign_in_step ev = false /\
  is_credential_read ev = false.
Proof.
  destruct ev as [| | | | |[] ?]; try discriminate; try (now repeat split).
  destruct l; try discriminate. cbn. intros ->. now repeat split.
Qed.

(** No event of the kinds [Q] in a history whose events all satisfy [P]. *)
Ltac none_of lemma :=
  eapply forallb_existsb; [intros ? ?Hev; apply lemma in Hev; apply Hev | eassumption].

(** ** Independence of the process environment *)

Section EnvFree.

Lemma env_free_ret {A} (a : A) : env_free (ret a).
Proof. intros env w tr. reflexivity. Qed.

Lemma env_free_raise {A} (e : Exn) : env_free (@raise A e).
Proof. intros env w tr. reflexivity. Qed.

Lemma env_free_logger (lvl : Level) (msg : string) : env_free (logger lvl msg).
Proof. intros env w tr. reflexivity. Qed.

Lemma env_free_await (a : Action) : env_free (await a).
Proof. intros env w tr. reflexivity. Qed.

Lemma env_free_page_url : env_free page_url.
Proof. intros env w tr. reflexivity. Qed.

Lemma env_free_is_visible (l : Locator) : env_free (is_visible l).
Proof. intros env w tr. reflexivity. Qed.

Lemma env_free_traceback (e : Exn) : env_free (traceback_format_exc e).
Proof. intros env w tr. reflexivity. Qed.

Lemma env_free_bind {A B} (m : M A) (k : A -> M B) :
  env_free m -> (forall a, env_free (k a)) -> env_free (bind m k).
Proof.
  intros Hm Hk env w tr. unfold bind. rewrite Hm.
  destruct (m w tr) as [t [a|e]]; [apply Hk | reflexivity].
Qed.

Lemma env_free_try_except {A} (m : M A) (h : Exn -> M A) :
  env_free m -> (forall e, env_free (h e)) -> env_free (try_except m h).
Proof.
  intros Hm Hh env w tr. unfold try_except. rewrite Hm.
  destruct (m w tr) as [t [a|e]]; [reflexivity|].
  destruct (is_exception e); [apply Hh | reflexivity].
Qed.

End EnvFree.

Create HintDb env_free.
#[export] Hint Resolve env_free_ret env_free_raise env_free_logger env_free_await
  env_free_page_url env_free_is_visible env_free_traceback : env_free.

Ltac env_free_structure :=
  repeat first
    [ solve [auto with env_free]
    | apply env_free_bind; [|intros ?]
    | apply env_free_try_except; [|intros ?]
    | match goal with
      | |- env_free (if ?c then _ else _) => destruct c
      | |- env_free (match ?x with _ => _ end) => destruct x
      end ].

Lemma env_free_navigate_to_gmail (fn : string) : env_free (navigate_to_gmail fn).
Proof. unfold navigate_to_gmail. env_free_structure. Qed.

Lemma env_free_on_exception (e : Exn) : env_free (on_exception e).
Proof. unfold on_exception. env_free_structure. Qed.

Lemma env_free_handled (e : Exn) : env_free (handled e).
Proof.
  intros env w tr. unfold handled.
  destruct (is_exception e); [apply env_free_on_exception | reflexivity].
Qed.

Lemma emits_after_handled (e : Exn) : emits after_sign_in (handled e).
Proof. apply emits_handled, emits_on_exception. Qed.

Lemma env_free_from_compose_click (page : Page) (r s b : string) :
  env_free (from_compose_click page r s b).
Proof.
  unfold from_compose_click, open_compose, fill_and_report, do_compose_email.
  env_free_structure; apply env_free_on_exception.
Qed.

(** ** Runs in which the sign-in link is, or is not, seen *)

(** When the sign-in link was not seen to be visible, the run has read no
    credential and has taken no step of the sign-in sequence, and it is the
    same run under any other process environment. *)
Lemma unseen_sign_in_run (w : World) (env : string -> option string)
    (r s b : string) :
  existsb sign_in_seen (fst (run (compose_email r s b) w)) = false ->
  run (compose_email r s b) (with_environ env w) = run (compose_email r s b) w /\
  existsb is_credential_read (fst (run (compose_email r s b) w)) = false /\
  existsb is_sign_in_step (fst (run (compose_email r s b) w)) = false.
Proof.
  rewrite !compose_email_blocks.
  change (w_get_current_page (with_environ env w)) with (w_get_current_page w).
  destruct (w_get_current_page w _) as [[page|]|e]; [|now repeat split..].
  rewrite env_free_navigate_to_gmail.
  destruct (emits_navigate_to_gmail "compose_email" w (entry_history r s page))
    as (n1 & E1 & F1).
  assert (Q1 : existsb is_credential_read n1 = false) by none_of navigating_before_sign_in.
  assert (S1 : existsb is_sign_in_step n1 = false) by none_of navigating_before_sign_in.
  destruct (navigate_to_gmail _ w _) as [t1 [[]|e]]; cbn [fst] in E1; subst t1.
  - rewrite !from_sign_in_check_run, !sign_in_if_required_run.
    change (w_is_visible (with_environ env w)) with (w_is_visible w).
    destruct (w_is_visible w _ sign_in_button) as [[|]|e].
    + (* the link is visible: the history says so *)
      intros Hunseen. exfalso. revert Hunseen.
      destruct (emits_sign_in w ((entry_history r s page ++ n1)
                  ++ [EvIsVisible sign_in_button (Return true)]))
        as (n2 & E2 & _).
      destruct (sign_in w _) as [t2 [[]|e]]; cbn [fst] in E2; subst t2.
      * destruct (emits_from_compose_click page r s b w
                    (((entry_history r s page ++ n1)
                      ++ [EvIsVisible sign_in_button (Return true)]) ++ n2))
          as (n3 & -> & _).
        rewrite !existsb_app. cbn. rewrite !orb_true_r. discriminate.
      * destruct (emits_after_handled e w
                    (((entry_history r s page ++ n1)
                      ++ [EvIsVisible sign_in_button (Return true)]) ++ n2))
          as (n3 & -> & _).
        rewrite !existsb_app. cbn. rewrite !orb_true_r. discriminate.
    + intros _. rewrite env_free_from_compose_click. split; [reflexivity|].
      destruct (emits_from_compose_click page r s b w
                  ((entry_history r s page ++ n1)
                   ++ [EvIsVisible sign_in_button (Return false);
                       EvLog INFO "No sign-in required. Proceeding with email composition."]))
        as (n3 & -> & F3).
      assert (Q3 : existsb is_credential_read n3 = false) by none_of after_sign_in_quiet.
      assert (S3 : existsb is_sign_in_step n3 = false) by none_of after_sign_in_quiet.
      rewrite !existsb_app, Q1, S1, Q3, S3. split; reflexivity.
    + intros _. rewrite env_free_handled. split; [reflexivity|].
      destruct (emits_after_handled e w
                  ((entry_history r s page ++ n1)
                   ++ [EvIsVisible sign_in_button (Raise e)]))
        as (n3 & -> & F3).
      assert (Q3 : existsb is_credential_read n3 = false) by none_of after_sign_in_quiet.
      assert (S3 : existsb is_sign_in_step n3 = false) by none_of after_sign_in_quiet.
      rewrite !existsb_app, Q1, S1, Q3, S3. split; reflexivity.
  - intros _. rewrite env_free_handled. split; [reflexivity|].
    destruct (emits_after_handled e w (entry_history r s page ++ n1))
      as (n3 & -> & F3).
    assert (Q3 : existsb is_credential_read n3 = false) by none_of after_sign_in_quiet.
    assert (S3 : existsb is_sign_in_step n3 = false) by none_of after_sign_in_quiet.
    rewrite !existsb_app, Q1, S1, Q3, S3. split; reflexivity.
Qed.

(** C6.  When the run does not see the sign-in link visible, it takes no
    step of the sign-in sequence and reads neither [EMAIL] nor [PASSWORD]:
    the history holds no read of the environment, and the run, history and
    result, is the same under any two process environments. *)
Theorem unseen_sign_in_reads_no_credentials :
  forall (w : World) (env1 env2 : string -> option string)
         (recipient subject body : string),
    let run1 := run (compose_email recipient subject body) (with_environ env1 w) in
    let run2 := run (compose_email recipient subject body) (with_environ env2 w) in
    existsb sign_in_seen (fst run1) = false ->
    run1 = run2 /\
    existsb is_credential_read (fst run1) = false /\
    existsb is_sign_in_step (fst run1) = false.
Proof.
  intros w env1 env2 r s b run1 run2 Hunseen. subst run1 run2.
  destruct (unseen_sign_in_run (with_environ env1 w) env2 r s b Hunseen)
    as (Hsame & Hreads & Hsteps).
  change (with_environ env2 (with_environ env1 w)) with (with_environ env2 w)
    in Hsame.
  now rewrite Hsame.
Qed.

Lemma unseen_sign_in_reads_no_credentials_witness :
  run (compose_email "a@b.com" "Hi" "Hello there")
      (with_environ Sample.no_environ Sample.signed_in) =
  run (compose_email "a@b.com" "Hi" "Hello there")
      (with_environ (fun _ => Some "secret") Sample.signed_in).
Proof.
  apply (unseen_sign_in_reads_no_credentials Sample.signed_in
           Sample.no_environ (fun _ => Some "secret")
           "a@b.com" "Hi" "Hello there").
  vm_compute. reflexivity.
Defined.

(** C5.  When the run sees the sign-in link visible and [EMAIL] or
    [PASSWORD] is unset, [compose_email] raises the configuration error
    right after reading the two variables: the history ends with the
    visibility check, the two reads, and the logging and notification of the
    failure message built around [EMAIL or PASSWORD environment variables
    are not set.]; it holds no step of the sign-in sequence.  The error
    raised is the [ValueError] with that message (the exception of the
    notification, should the notification itself raise). *)
Theorem missing_credentials_raise_before_sign_in :
  forall (w : World) (recipient subject body : string),
    w_environ w "EMAIL" = None \/ w_environ w "PASSWORD" = None ->
    existsb sign_in_seen (fst (run (compose_email recipient subject body) w)) = true ->
    let m := handler_message w
               (ValueError "EMAIL or PASSWORD environment variables are not set.") in
    contains "EMAIL or PASSWORD environment variables are not set." m = true /\
    existsb is_sign_in_step (fst (run (compose_email recipient subject body) w)) = false /\
    exists pre rn,
      run (compose_email recipient subject body) w =
      (pre ++ [EvIsVisible sign_in_button (Return true);
               EvLog INFO "Sign-in button detected. Attempting to sign in...";
               EvEnviron "EMAIL" (w_environ w "EMAIL");
               EvEnviron "PASSWORD" (w_environ w "PASSWORD");
               EvLog ERROR m;
               EvAct (notify_user m MessageType.ERROR) rn],
       match rn with
       | Return _ => Raise (ValueError m)
       | Raise e => Raise e
       end).
Proof.
  intros w r s b Hunset Hseen m. split.
  { subst m. cbn [handler_message str]. apply contains_append_r.
    apply contains_prefix, prefix_append. }
  revert Hseen. rewrite compose_email_blocks.
  destruct (w_get_current_page w _) as [[page|]|e]; [|discriminate..].
  destruct (emits_navigate_to_gmail "compose_email" w (entry_history r s page))
    as (n1 & E1 & F1).
  assert (V1 : existsb sign_in_seen n1 = false) by none_of navigating_before_sign_in.
  assert (S1 : existsb is_sign_in_step n1 = false) by none_of navigating_before_sign_in.
  assert (Hhandled : forall e tr,
             existsb sign_in_seen tr = false ->
             existsb sign_in_seen (fst (handled e w tr)) = false).
  { intros e tr Htr. unfold handled. destruct (is_exception e); [|exact Htr].
    rewrite on_exception_run. cbv zeta. cbn [fst].
    now rewrite existsb_app, Htr. }
  destruct (navigate_to_gmail _ w _) as [t1 [[]|e]]; cbn [fst] in E1; subst t1.
  - rewrite from_sign_in_check_run, sign_in_if_required_run.
    destruct (w_is_visible w _ sign_in_button) as [[|]|e].
    + intros _. rewrite (sign_in_unset w _ Hunset).
      rewrite handled_exception by reflexivity. rewrite on_exception_run.
      cbv zeta. fold configuration_error. fold m. cbn [fst]. split.
      * rewrite !existsb_app, S1. reflexivity.
      * exists (entry_history r s page ++ n1). eexists.
        norm_trace. reflexivity.
    + destruct (emits_from_compose_click page r s b w
                  ((entry_history r s page ++ n1)
                   ++ [EvIsVisible sign_in_button (Return false);
                       EvLog INFO "No sign-in required. Proceeding with email composition."]))
        as (n3 & -> & F3).
      assert (V3 : existsb sign_in_seen n3 = false) by none_of after_sign_in_quiet.
      rewrite !existsb_app, V1, V3. discriminate.
    + rewrite Hhandled; [discriminate|].
      now rewrite !existsb_app, V1.
  - rewrite Hhandled; [discriminate|].
    now rewrite !existsb_app, V1.
Qed.

Lemma missing_credentials_raise_before_sign_in_witness :
  exists m,
    snd (run (compose_email "a@b.com" "Hi" "Hello there") Sample.signed_out)
    = Raise (ValueError m) /\
    contains "EMAIL or PASSWORD environment variables are not set." m = true.
Proof.
  destruct (missing_credentials_raise_before_sign_in Sample.signed_out
              "a@b.com" "Hi" "Hello there") as (Hcarried & _ & pre & rn & Hrun).
  - left. reflexivity.
  - vm_compute. reflexivity.
  - eexists. split; [|exact Hcarried].
    rewrite Hrun. cbn [snd]. destruct rn as [[]|e]; [reflexivity|].
    exfalso. vm_compute in Hrun. injection Hrun as Htr _.
    apply (f_equal (@rev Event)) in Htr. rewrite rev_app_distr in Htr.
    cbn in Htr. discriminate.
Defined.

(** ** Successful runs *)

(** Evaluates the marker test on a closed summary. *)
Ltac decide_marker :=
  match goal with
  | |- context [contains "Error" ?x] =>
      let v := eval vm_compute in (contains "Error" x) in
      change (contains "Error" x) with v
  end.

(** C9.  In a world where a page is open, the sign-in link is not visible
    and every awaited call returns, [compose_email "a@b.com" "Hi"
    "Hello there"] returns exactly [Email composed successfully for
    a@b.com.], having taken no step of the sign-in sequence and read no
    credential.  In every world and for all inputs, what [compose_email]
    returns is [Email composed successfully for <recipient>.], which contains
    the recipient. *)
Theorem composed_successfully :
  forall (w : World),
    (forall page,
       w_get_current_page w [start_log "a@b.com" "Hi"] = Return (Some page) ->
       (forall h, w_is_visible w h sign_in_button = Return false) ->
       (forall h a, w_act w h a = Return tt) ->
       let (tr, out) := run (compose_email "a@b.com" "Hi" "Hello there") w in
       out = Return "Email composed successfully for a@b.com." /\
       existsb is_sign_in_step tr = false /\
       existsb is_credential_read tr = false /\
       keyboard_actions tr = fill_protocol "a@b.com" "Hi" "Hello there") /\
    (forall recipient subject body msg,
       snd (run (compose_email recipient subject body) w) = Return msg ->
       msg = ("Email composed successfully for " ++ recipient ++ ".")%string /\
       contains recipient msg = true).
Proof.
  intros w. split.
  - intros page Hpage Hvisible Hact.
    rewrite compose_email_blocks, Hpage. unfold from_sign_in_check.
    unfold_skill. rewrite Hact. cbv beta iota.
    destruct (contains "mail.google.com" (w_url w _)); cbn [negb]; cbv beta iota;
      repeat (first [rewrite Hact | rewrite Hvisible]; cbv beta iota);
      cbv beta iota zeta delta [summary_message detailed_message];
      decide_marker; cbv beta iota;
      repeat (rewrite Hact; cbv beta iota);
      norm_trace; repeat split.
  - intros r s b msg Hret.
    destruct (compose_email_returns w r s b msg Hret) as [-> _].
    split; [reflexivity | apply success_summary_names].
Qed.

Lemma composed_successfully_witness :
  run (compose_email "a@b.com" "Hi" "Hello there") Sample.signed_in =
  (fst (run (compose_email "a@b.com" "Hi" "Hello there") Sample.signed_in),
   Return "Email composed successfully for a@b.com.").
Proof.
  destruct (composed_successfully Sample.signed_in) as [Hscenario _].
  specialize (Hscenario (PageRef 0) eq_refl (fun _ => eq_refl)
                (fun _ _ => eq_refl)).
  destruct (run (compose_email "a@b.com" "Hi" "Hello there") Sample.signed_in)
    as [tr out].
  destruct Hscenario as [-> _]. reflexivity.
Defined.

(** ** The marker in the recipient *)

(** C10.  [compose_email] takes an outcome for a failure when [Error]
    occurs in its summary, and the success summary quotes the recipient.  So
    for a recipient that contains [Error], [compose_email] never returns;
    and when it hands over to [do_compose_email] and no keyboard action
    raises, the five keyboard actions are performed, the outcome is the
    success outcome, and the run still ends in the generic handler, which
    raises a [ValueError] around the success detail. *)
Theorem marker_in_recipient_is_escalated :
  forall (w : World) (recipient subject body : string),
    contains "Error" recipient = true ->
    is_raise (snd (run (compose_email recipient subject body) w)) = true /\
    (forall page tr0 new res,
       hand_over recipient subject w = Some (page, tr0) ->
       do_compose_email page recipient subject body w tr0
         = (tr0 ++ new, Return res) ->
       existsb keyboard_raised new = false ->
       keyboard_actions new = fill_protocol recipient subject body /\
       res = mkOutcome (success_summary recipient)
                       (success_detail recipient subject body) /\
       contains "Error" (summary_message res) = true /\
       let m := handler_message w
                  (ValueError (success_detail recipient subject body)) in
       exists rn,
         run (compose_email recipient subject body) w =
         (tr0 ++ new ++ [EvLog ERROR m; EvAct (notify_user m MessageType.ERROR) rn],
          match rn with
          | Return _ => Raise (ValueError m)
          | Raise e => Raise e
          end)).
Proof.
  intros w r s b Hmarked. split.
  - destruct (snd (run (compose_email r s b) w)) as [msg|e] eqn:Hout;
      [|reflexivity].
    destruct (compose_email_returns w r s b msg Hout) as [-> Hclean].
    rewrite (success_summary_marked r Hmarked) in Hclean. discriminate.
  - intros page tr0 new res Hover Hrun Hquiet.
    destruct (do_compose_email_ends w page r s b tr0)
      as (new' & out & Hrun' & _ & _ & _ & Hout).
    rewrite Hrun in Hrun'. injection Hrun' as Hnew <-.
    apply app_inv_head in Hnew. subst new'.
    rewrite Hquiet in Hout. destruct Hout as (Hacts & _ & ->).
    assert (Hmark : contains "Error"
                      (summary_message
                         (mkOutcome (success_summary r) (success_detail r s b)))
                    = true) by (apply success_summary_marked, Hmarked).
    repeat split; [exact Hacts | exact Hmark |].
    destruct (escalation_run w r s b page tr0 _ _ Hover Hrun Hmark) as (rn & Hesc).
    exists rn. rewrite Hesc, <- app_assoc. reflexivity.
Qed.

Lemma marker_in_recipient_is_escalated_witness :
  exists m,
    snd (run (compose_email "Error@x.com" "Hi" "Hello there") Sample.signed_in)
    = Raise (ValueError m) /\
    contains "Email composed successfully for Error@x.com." m = true.
Proof.
  destruct (marker_in_recipient_is_escalated Sample.signed_in
              "Error@x.com" "Hi" "Hello there" eq_refl) as (_ & H).
  edestruct H as (_ & _ & _ & rn & Hrun).
  - vm_compute. reflexivity.
  - vm_compute. reflexivity.
  - reflexivity.
  - rewrite Hrun. vm_compute in Hrun. injection Hrun as Hrn _.
    rewrite <- Hrn. eexists. split; reflexivity.
Defined.

(** ** The sign-in branch *)

(** A credential that is unset or empty: the branch raises after the reads. *)
Lemma sign_in_falsy (w : World) (tr : Trace) :
  unset_or_empty (w_environ w "EMAIL")
  || unset_or_empty (w_environ w "PASSWORD") = true ->
  sign_in w tr = (tr ++ credential_reads w, Raise (ValueError configuration_error)).
Proof.
  unfold credential_reads.
  cbv beta iota zeta delta [sign_in bind logger os_environ_get raise].
  norm_trace.
  destruct (w_environ w "EMAIL") as [[|c email]|];
    destruct (w_environ w "PASSWORD") as [[|c' password]|];
    try reflexivity; discriminate.
Qed.

(** Both credentials set: the branch takes the steps of [sign_in_protocol]
    in order and stops at the first one that raises. *)
Lemma sign_in_truthy (w : World) (tr : Trace) :
  unset_or_empty (w_environ w "EMAIL")
  || unset_or_empty (w_environ w "PASSWORD") = false ->
  exists email password new r,
    w_environ w "EMAIL" = Some email /\
    w_environ w "PASSWORD" = Some password /\
    sign_in w tr = (tr ++ credential_reads w ++ new, r) /\
    forallb sign_in_event new = true /\
    (exists rest, sign_in_actions new ++ rest = sign_in_protocol email password) /\
    match r with
    | Return _ =>
        existsb sign_in_step_raised new = false /\
        sign_in_actions new = sign_in_protocol email password
    | Raise e =>
        exists pre a,
          new = pre ++ [EvAct a (Raise e)] /\
          is_sign_in_step (EvAct a (Raise e)) = true /\
          existsb sign_in_step_raised pre = false
    end.
Proof.
  unfold credential_reads.
  cbv beta iota zeta delta [sign_in bind logger os_environ_get raise await].
  destruct (w_environ w "EMAIL") as [[|c email]|];
    destruct (w_environ w "PASSWORD") as [[|c' password]|];
    try discriminate.
  intros _. exists (String c email), (String c' password).
  repeat step_action; norm_trace;
    do 2 eexists; (split; [reflexivity|]); (split; [reflexivity|]);
    (split; [reflexivity|]); (split; [reflexivity|]);
    (split; [eexists; reflexivity|]).
  1: split; reflexivity.
  all: match goal with
       | |- exists pre a, ?l = _ /\ _ =>
           exists (removelast l); cbn [removelast]; eexists; repeat split
       end.
Qed.

(** ** Inversion of [bind] *)

Lemma bind_returns {A B} (m : M A) (k : A -> M B) (w : World)
    (t t' : Trace) (b : B) :
  bind m k w t = (t', Return b) ->
  exists a t1, m w t = (t1, Return a) /\ k a w t1 = (t', Return b).
Proof.
  unfold bind. destruct (m w t) as [t1 [a|e]]; [|discriminate].
  intros H. now exists a, t1.
Qed.

Lemma bind_raises {A B} (m : M A) (k : A -> M B) (w : World)
    (t t' : Trace) (e : Exn) :
  bind m k w t = (t', Raise e) ->
  m w t = (t', Raise e) \/
  exists a t1, m w t = (t1, Return a) /\ k a w t1 = (t', Raise e).
Proof.
  unfold bind. destruct (m w t) as [t1 [a|e']].
  - intros H. right. exists a, t1. split; [reflexivity | exact H].
  - intros H. injection H as -> ->. now left.
Qed.

(** ** Why the [try] statement fails *)

Section TryFailures.

Variables (w : World) (r s b : string).

Lemma navigate_to_gmail_raises (fn : string) (t t' : Trace) (e : Exn) :
  navigate_to_gmail fn w t = (t', Raise e) -> TryFailure w r s b t' e.
Proof.
  unfold_skill. step_action.
  - destruct (contains "mail.google.com" (w_url w _)); cbn [negb]; cbv beta iota;
      [discriminate|].
    step_action; [discriminate|].
    intros H. injection H as <- <-. now apply call_failed.
  - intros H. injection H as <- <-. now apply call_failed.
Qed.

Lemma sign_in_raises (t t' : Trace) (e : Exn) :
  sign_in w t = (t', Raise e) -> TryFailure w r s b t' e.
Proof.
  destruct (unset_or_empty (w_environ w "EMAIL")
            || unset_or_empty (w_environ w "PASSWORD")) eqn:Hcred.
  - rewrite (sign_in_falsy w t Hcred). intros H. injection H as <- <-.
    unfold credential_reads.
    replace (t ++ [EvLog INFO "Sign-in button detected. Attempting to sign in...";
                   EvEnviron "EMAIL" (w_environ w "EMAIL");
                   EvEnviron "PASSWORD" (w_environ w "PASSWORD")])
      with ((t ++ [EvLog INFO "Sign-in button detected. Attempting to sign in..."])
            ++ [EvEnviron "EMAIL" (w_environ w "EMAIL");
                EvEnviron "PASSWORD" (w_environ w "PASSWORD")])
      by (now rewrite <- app_assoc).
    now apply credentials_missing.
  - destruct (sign_in_truthy w t Hcred)
      as (email & password & new & res & _ & _ & -> & _ & _ & Hres).
    intros H. injection H as <- ->.
    destruct Hres as (pre & a & -> & Ha & _).
    match goal with
    | |- TryFailure _ _ _ _ ?l _ =>
        replace l with ((t ++ credential_reads w ++ pre) ++ [EvAct a (Raise e)])
          by (unfold credential_reads; now rewrite <- !app_assoc)
    end.
    apply call_failed. destruct a; try reflexivity; discriminate.
Qed.

Lemma sign_in_if_required_raises (t t' : Trace) (e : Exn) :
  sign_in_if_required w t = (t', Raise e) -> TryFailure w r s b t' e.
Proof.
  rewrite sign_in_if_required_run.
  destruct (w_is_visible w t sign_in_button) as [[|]|e'].
  - apply sign_in_raises.
  - discriminate.
  - intros H. injection H as <- <-. apply visibility_failed.
Qed.

Lemma open_compose_raises (t t' : Trace) (e : Exn) :
  open_compose w t = (t', Raise e) -> TryFailure w r s b t' e.
Proof.
  unfold_skill. repeat step_action; try discriminate;
    intros H; injection H as <- <-; now apply call_failed.
Qed.

Lemma open_compose_window_raises (fn : string) (t t' : Trace) (e : Exn) :
  open_compose_window fn w t = (t', Raise e) -> TryFailure w r s b t' e.
Proof.
  unfold open_compose_window. intros H.
  apply bind_raises in H as [H|(a & t1 & _ & H)];
    [now apply navigate_to_gmail_raises in H|].
  apply bind_raises in H as [H|(a' & t2 & _ & H)];
    [now apply sign_in_if_required_raises in H|].
  now apply open_compose_raises in H.
Qed.

Lemma fill_and_report_raises (fn : string) (page : Page) (t t' : Trace) (e : Exn) :
  fill_and_report fn page r s b w t = (t', Raise e) -> TryFailure w r s b t' e.
Proof.
  destruct (do_compose_email_ends w page r s b t)
    as (new & [res|e0] & Hrun & _ & _ & _ & Hout).
  - rewrite (fill_and_report_run w fn page r s b t _ res Hrun).
    destruct (existsb keyboard_raised new) eqn:Hraised.
    + destruct Hout as (pre & a & e1 & -> & Ha & Hexc & _ & ->).
      cbn [summary_message detailed_message].
      rewrite error_summary_marked. intros H. injection H as <- <-.
      rewrite app_assoc. now apply typing_failed.
    + destruct Hout as (_ & (pre & ->) & ->).
      cbn [summary_message detailed_message].
      destruct (contains "Error" (success_summary r)) eqn:Hmark.
      * intros H. injection H as <- <-.
        rewrite app_assoc. now apply marker_in_summary.
      * cbv zeta. repeat step_action; try discriminate;
          intros H; injection H as <- <-; now apply call_failed.
  - rewrite (fill_and_report_interrupted w fn page r s b t _ e0 Hrun).
    destruct Hout as (Hexc & pre & a & -> & Ha & _).
    intros H. injection H as <- <-.
    rewrite app_assoc. now apply typing_interrupted.
Qed.

End TryFailures.

(** The body of the [try] statement notifies no error. *)
Lemma emits_quiet_open_compose_window :
  emits no_error_notification (open_compose_window "compose_email").
Proof.
  unfold open_compose_window, navigate_to_gmail, sign_in_if_required, sign_in,
    open_compose.
  emits_structure; reflexivity.
Qed.

Lemma emits_quiet_fill_and_report (page : Page) (r s b : string) :
  emits no_error_notification (fill_and_report "compose_email" page r s b).
Proof.
  unfold fill_and_report, do_compose_email. emits_structure; reflexivity.
Qed.

Lemma no_error_notification_quiet (ev : Event) :
  no_error_notification ev = true -> is_error_notification ev = false.
Proof. unfold no_error_notification. now destruct (is_error_notification ev). Qed.

(** Every failure of a run that obtained a page: the body of the [try]
    statement fails in one of the ways of [TryFailure], having notified no
    error, and its exception meets the handlers. *)
Lemma run_failure (w : World) (r s b : string) (page : Page)
    (tr : Trace) (e : Exn) :
  w_get_current_page w [start_log r s] = Return (Some page) ->
  run (compose_email r s b) w = (tr, Raise e) ->
  exists t cause,
    TryFailure w r s b t cause /\
    existsb is_error_notification t = false /\
    handled cause w t = (tr, Raise e).
Proof.
  intros Hpage. rewrite compose_email_run, Hpage.
  fold (entry_history r s page).
  destruct (emits_quiet_open_compose_window w (entry_history r s page))
    as (n0 & E0 & F0).
  assert (Q0 : existsb is_error_notification n0 = false)
    by (eapply forallb_existsb; [apply no_error_notification_quiet | exact F0]).
  destruct (open_compose_window _ w _) as [t0 [[]|cause]] eqn:Hopen;
    cbn [fst] in E0; subst t0.
  - destruct (emits_quiet_fill_and_report page r s b w (entry_history r s page ++ n0))
      as (n1 & E1 & F1).
    assert (Q1 : existsb is_error_notification n1 = false)
      by (eapply forallb_existsb; [apply no_error_notification_quiet | exact F1]).
    destruct (fill_and_report _ page r s b w _) as [t1 [msg|cause]] eqn:Hfill;
      [discriminate|].
    cbn [fst] in E1. subst t1.
    intros H. exists ((entry_history r s page ++ n0) ++ n1), cause.
    split; [now apply (fill_and_report_raises w r s b) in Hfill|].
    split; [|exact H].
    rewrite !existsb_app, Q0, Q1. reflexivity.
  - intros H. exists (entry_history r s page ++ n0), cause.
    split; [now apply (open_compose_window_raises w r s b) in Hopen|].
    split; [|exact H].
    rewrite !existsb_app, Q0. reflexivity.
Qed.

(** What leaves the handlers: an [Exception] is logged, notified and raised
    anew; anything else leaves as it came. *)
Lemma handled_raises (w : World) (cause e : Exn) (t tr : Trace) :
  handled cause w t = (tr, Raise e) ->
  if is_exception cause
  then exists rn,
         tr = t ++ [EvLog ERROR (handler_message w cause);
                    EvAct (notify_user (handler_message w cause)
                             MessageType.ERROR) rn] /\
         e = match rn with
             | Return _ => ValueError (handler_message w cause)
             | Raise e' => e'
             end
  else tr = t /\ e = cause.
Proof.
  unfold handled. destruct (is_exception cause).
  - rewrite on_exception_run. cbv zeta. intros H. injection H as <- He.
    eexists. split; [reflexivity|].
    destruct (w_act w _ _); now injection He.
  - intros H. injection H as <- <-. now split.
Qed.

(** An exception that is no [Exception] leaves the body of the [try]
    statement from the call that raised it. *)
Lemma interruption_last_call (w : World) (r s b : string) (t : Trace) (cause : Exn) :
  TryFailure w r s b t cause -> is_exception cause = false ->
  exists pre ev, t = pre ++ [ev] /\ raised_with ev = Some cause.
Proof.
  intros [pre a e _|pre e|pre _|pre a e _ _|pre a e _ _|pre _] Hexc;
    try discriminate; now exists pre; eexists.
Qed.

(** The last event of a history. *)
Lemma last_event (pre pre' : Trace) (ev ev' : Event) :
  pre ++ [ev] = pre' ++ [ev'] -> ev = ev'.
Proof. intros H. now apply app_inj_tail in H. Qed.

Lemma last_of_two (pre pre' : Trace) (x y ev : Event) :
  pre ++ [x; y] = pre' ++ [ev] -> y = ev.
Proof.
  intros H. apply (last_event (pre ++ [x]) pre').
  now rewrite <- app_assoc.
Qed.

(** ** Failures and their notification *)




(** * Further properties of the skill *)

(** ** Runs that see the sign-in link *)

Lemma sign_in_actions_app (l l' : Trace) :
  sign_in_actions (l ++ l') = sign_in_actions l ++ sign_in_actions l'.
Proof.
  induction l as [|ev l IH]; [reflexivity|].
  destruct ev as [| | | | |a rn]; cbn [app sign_in_actions]; auto.
  destruct (is_sign_in_step (EvAct a rn)); cbn [app]; now rewrite IH.
Qed.

Lemma sign_in_actions_none (l : Trace) :
  existsb is_sign_in_step l = false -> sign_in_actions l = [].
Proof.
  induction l as [|ev l IH]; [reflexivity|].
  cbn [existsb]. intros H. apply orb_false_iff in H as [Hev Hl].
  destruct ev as [| | | | |a rn]; cbn [sign_in_actions]; auto.
  rewrite Hev. auto.
Qed.

Lemma sign_in_step_raised_none (l : Trace) :
  existsb is_sign_in_step l = false -> existsb sign_in_step_raised l = false.
Proof.
  induction l as [|ev l IH]; [reflexivity|].
  cbn [existsb]. intros H. apply orb_false_iff in H as [Hev Hl].
  rewrite (IH Hl), orb_false_r.
  destruct ev as [| | | | |a [|e]]; try reflexivity. exact Hev.
Qed.

(** A run in whose history the sign-in link is visible has obtained a page,
    gone through the navigation block and entered the sign-in branch. *)
Lemma seen_run (w : World) (r s b : string) :
  existsb sign_in_seen (fst (run (compose_email r s b) w)) = true ->
  exists page n1,
    forallb navigating n1 = true /\
    run (compose_email r s b) w =
    match sign_in w ((entry_history r s page ++ n1)
                     ++ [EvIsVisible sign_in_button (Return true)]) with
    | (t2, Raise e) => handled e w t2
    | (t2, Return _) => from_compose_click page r s b w t2
    end.
Proof.
  rewrite compose_email_blocks.
  destruct (w_get_current_page w _) as [[page|]|e]; [|discriminate..].
  destruct (emits_navigate_to_gmail "compose_email" w (entry_history r s page))
    as (n1 & E1 & F1).
  assert (V1 : existsb sign_in_seen n1 = false) by none_of navigating_before_sign_in.
  assert (Hhandled : forall e tr,
             existsb sign_in_seen tr = false ->
             existsb sign_in_seen (fst (handled e w tr)) = false).
  { intros e tr Htr. unfold handled. destruct (is_exception e); [|exact Htr].
    rewrite on_exception_run. cbv zeta. cbn [fst].
    now rewrite existsb_app, Htr. }
  destruct (navigate_to_gmail _ w _) as [t1 [[]|e]]; cbn [fst] in E1; subst t1.
  - rewrite from_sign_in_check_run, sign_in_if_required_run.
    destruct (w_is_visible w _ sign_in_button) as [[|]|e].
    + intros _. now exists page, n1.
    + destruct (emits_from_compose_click page r s b w
                  ((entry_history r s page ++ n1)
                   ++ [EvIsVisible sign_in_button (Return false);
                       EvLog INFO "No sign-in required. Proceeding with email composition."]))
        as (n3 & -> & F3).
      assert (V3 : existsb sign_in_seen n3 = false) by none_of after_sign_in_quiet.
      rewrite !existsb_app, V1, V3. discriminate.
    + rewrite Hhandled; [discriminate|].
      now rewrite !existsb_app, V1.
  - rewrite Hhandled; [discriminate|].
    now rewrite !existsb_app, V1.
Qed.

(** What the run adds once the sign-in branch is over holds no sign-in step. *)
Lemma after_sign_in_branch (w : World) (page : Page) (r s b : string)
    (t : Trace) (res : Result unit) :
  exists rest,
    fst (match res with
         | Raise e => handled e w t
         | Return _ => from_compose_click page r s b w t
         end) = t ++ rest /\
    forallb after_sign_in rest = true.
Proof.
  destruct res as [[]|e].
  - apply emits_from_compose_click.
  - apply emits_after_handled.
Qed.

Lemma sign_in_actions_some (l : Trace) :
  sign_in_actions l <> [] -> existsb is_sign_in_step l = true.
Proof.
  intros H. destruct (existsb is_sign_in_step l) eqn:E; [reflexivity|].
  now apply sign_in_actions_none in E.
Qed.

(** The history of a run that saw the sign-in link, cut at the sign-in
    branch: what precedes the branch holds no sign-in step. *)
Lemma before_sign_in_branch (r s : string) (page : Page) (n1 : Trace) :
  forallb navigating n1 = true ->
  existsb is_sign_in_step
    ((entry_history r s page ++ n1)
     ++ [EvIsVisible sign_in_button (Return true)]) = false.
Proof.
  intros F1.
  assert (S1 : existsb is_sign_in_step n1 = false) by none_of navigating_before_sign_in.
  now rewrite !existsb_app, S1.
Qed.

Lemma after_sign_in_no_step (rest : Trace) :
  forallb after_sign_in rest = true -> existsb is_sign_in_step rest = false.
Proof. intros F. none_of after_sign_in_quiet. Qed.

(** X2.  In a run that sees the sign-in link, a step of the sign-in
    sequence is taken exactly when both [EMAIL] and [PASSWORD] are set to
    non-empty strings.  A variable that is unset or set to the empty string
    makes the run end right after the two reads with the configuration
    error, logged, notified and raised by the generic handler. *)
Theorem empty_credentials_count_as_unset :
  forall (w : World) (recipient subject body : string),
    existsb sign_in_seen (fst (run (compose_email recipient subject body) w)) = true ->
    let unusable :=
      unset_or_empty (w_environ w "EMAIL")
      || unset_or_empty (w_environ w "PASSWORD") in
    (existsb is_sign_in_step (fst (run (compose_email recipient subject body) w))
     = negb unusable) /\
    (unusable = true ->
     let m := handler_message w
                (ValueError "EMAIL or PASSWORD environment variables are not set.") in
     exists pre rn,
       run (compose_email recipient subject body) w =
       (pre ++ [EvIsVisible sign_in_button (Return true);
                EvLog INFO "Sign-in button detected. Attempting to sign in...";
                EvEnviron "EMAIL" (w_environ w "EMAIL");
                EvEnviron "PASSWORD" (w_environ w "PASSWORD");
                EvLog ERROR m;
                EvAct (notify_user m MessageType.ERROR) rn],
        match rn with
        | Return _ => Raise (ValueError m)
        | Raise e => Raise e
        end)).
Proof.
  intros w r s b Hseen unusable.
  destruct (seen_run w r s b Hseen) as (page & n1 & F1 & Hrun).
  pose proof (before_sign_in_branch r s page n1 F1) as S1.
  rewrite !existsb_app in S1.
  rewrite Hrun. clear Hrun Hseen.
  destruct unusable eqn:Hcred; subst unusable.
  - rewrite (sign_in_falsy w _ Hcred).
    rewrite handled_exception by reflexivity.
    rewrite on_exception_run. cbv zeta. cbn [fst].
    fold configuration_error. split.
    + rewrite !existsb_app, S1. reflexivity.
    + intros _. exists (entry_history r s page ++ n1). eexists.
      unfold credential_reads. norm_trace. reflexivity.
  - split; [|discriminate].
    destruct (sign_in_truthy w
                ((entry_history r s page ++ n1)
                 ++ [EvIsVisible sign_in_button (Return true)]) Hcred)
      as (email & password & new & res & _ & _ & -> & _ & _ & Hres).
    destruct (after_sign_in_branch w page r s b
                (((entry_history r s page ++ n1)
                  ++ [EvIsVisible sign_in_button (Return true)])
                 ++ credential_reads w ++ new) res) as (rest & Hrest & _).
    assert (Hstep : existsb is_sign_in_step new = true).
    { destruct res as [[]|e].
      - destruct Hres as [_ Hall]. apply sign_in_actions_some.
        rewrite Hall. discriminate.
      - destruct Hres as (pre & a & -> & Ha & _).
        rewrite existsb_app. cbn [existsb]. rewrite Ha. apply orb_true_r. }
    destruct res as [[]|e]; rewrite Hrest, !existsb_app, Hstep, S1;
      rewrite ?orb_true_r; reflexivity.
Qed.

Lemma empty_credentials_count_as_unset_witness :
  exists m,
    snd (run (compose_email "a@b.com" "Hi" "Hello there") MoreSamples.empty_password)
    = Raise (ValueError m) /\
    existsb is_sign_in_step
      (fst (run (compose_email "a@b.com" "Hi" "Hello there")
              MoreSamples.empty_password)) = false.
Proof.
  destruct (empty_credentials_count_as_unset MoreSamples.empty_password
              "a@b.com" "Hi" "Hello there") as (Hnone & Hraise).
  - vm_compute. reflexivity.
  - destruct (Hraise eq_refl) as (pre & rn & Hrun).
    eexists. split; [|exact Hnone].
    rewrite Hrun. cbn [snd]. destruct rn as [[]|e]; [reflexivity|].
    exfalso. vm_compute in Hrun. injection Hrun as Htr _.
    apply (f_equal (@rev Event)) in Htr. rewrite rev_app_distr in Htr.
    cbn in Htr. discriminate.
Defined.

Lemma after_failed_step_none (l : Trace) :
  existsb sign_in_step_raised l = false -> after_failed_step l = [].
Proof.
  induction l as [|ev l IH]; [reflexivity|].
  cbn [existsb after_failed_step]. intros H.
  apply orb_false_iff in H as [-> Hl]. auto.
Qed.

Lemma after_failed_step_app (l l' : Trace) :
  existsb sign_in_step_raised l = false ->
  after_failed_step (l ++ l') = after_failed_step l'.
Proof.
  induction l as [|ev l IH]; [reflexivity|].
  cbn [existsb app after_failed_step]. intros H.
  apply orb_false_iff in H as [-> Hl]. auto.
Qed.

(** X1.  With [EMAIL] and [PASSWORD] set to non-empty strings, the steps of
    the sign-in sequence that a run takes are an initial segment of: click
    the sign-in link, fill the e-mail, click Next, wait for the password
    input, click the password field, fill the password, press Enter, wait
    for the Gmail URL with a timeout of 30000.  A run that sees the sign-in
    link and in which no step raises takes all eight, in this order; and
    after a step that raised no further step is taken. *)
Theorem sign_in_follows_protocol :
  forall (w : World) (recipient subject body email password : string),
    w_environ w "EMAIL" = Some email ->
    w_environ w "PASSWORD" = Some password ->
    email <> EmptyString ->
    password <> EmptyString ->
    let tr := fst (run (compose_email recipient subject body) w) in
    (exists rest, sign_in_actions tr ++ rest = sign_in_protocol email password) /\
    (existsb sign_in_seen tr = true ->
     existsb sign_in_step_raised tr = false ->
     sign_in_actions tr =
       [click (get_by_role "link" "Sign in");
        fill (get_by_label "Email or phone") email;
        click (get_by_role "button" "Next");
        wait_for_selector ("input[type=" ++ dquote ++ "password" ++ dquote ++ "]")
          "visible";
        click (get_by_label "Enter your password");
        fill (get_by_label "Enter your password") password;
        press (get_by_label "Enter your password") "Enter";
        wait_for_url "https://mail.google.com/mail/u/0/" 30000]) /\
    existsb is_sign_in_step (after_failed_step tr) = false.
Proof.
  intros w r s b email password Hemail Hpassword Hne Hnp tr. subst tr.
  assert (Hcred : unset_or_empty (w_environ w "EMAIL")
                  || unset_or_empty (w_environ w "PASSWORD") = false).
  { rewrite Hemail, Hpassword.
    destruct email; [now elim Hne|]. destruct password; [now elim Hnp|].
    reflexivity. }
  destruct (existsb sign_in_seen (fst (run (compose_email r s b) w))) eqn:Hseen.
  - destruct (seen_run w r s b Hseen) as (page & n1 & F1 & Hrun).
    pose proof (before_sign_in_branch r s page n1 F1) as S1.
    rewrite Hrun. clear Hrun Hseen.
    destruct (sign_in_truthy w
                ((entry_history r s page ++ n1)
                 ++ [EvIsVisible sign_in_button (Return true)]) Hcred)
      as (email' & password' & new & res & He & Hp & -> & _ & Hprefix & Hres).
    rewrite Hemail in He. rewrite Hpassword in Hp.
    injection He as <-. injection Hp as <-.
    destruct (after_sign_in_branch w page r s b
                (((entry_history r s page ++ n1)
                  ++ [EvIsVisible sign_in_button (Return true)])
                 ++ credential_reads w ++ new) res) as (rest & Hrest & Frest).
    apply after_sign_in_no_step in Frest.
    assert (Hacts : sign_in_actions
                      ((((entry_history r s page ++ n1)
                         ++ [EvIsVisible sign_in_button (Return true)])
                        ++ credential_reads w ++ new) ++ rest)
                    = sign_in_actions new).
    { rewrite !sign_in_actions_app.
      rewrite <- !sign_in_actions_app.
      rewrite (sign_in_actions_app _ rest), (sign_in_actions_none rest Frest).
      rewrite app_nil_r, sign_in_actions_app, (sign_in_actions_none _ S1).
      rewrite sign_in_actions_app. reflexivity. }
    assert (Hrun : fst (match res with
                        | Return _ => from_compose_click page r s b w
                            (((entry_history r s page ++ n1)
                              ++ [EvIsVisible sign_in_button (Return true)])
                             ++ credential_reads w ++ new)
                        | Raise e => handled e w
                            (((entry_history r s page ++ n1)
                              ++ [EvIsVisible sign_in_button (Return true)])
                             ++ credential_reads w ++ new)
                        end)
                   = (((entry_history r s page ++ n1)
                       ++ [EvIsVisible sign_in_button (Return true)])
                      ++ credential_reads w ++ new) ++ rest).
    { destruct res as [[]|e]; exact Hrest. }
    clear Hrest.
    replace (fst (let (t2, r0) :=
                    ((((entry_history r s page ++ n1)
                       ++ [EvIsVisible sign_in_button (Return true)])
                      ++ credential_reads w ++ new), res) in
                  match r0 with
                  | Return _ => from_compose_click page r s b w t2
                  | Raise e => handled e w t2
                  end))
      with ((((entry_history r s page ++ n1)
              ++ [EvIsVisible sign_in_button (Return true)])
             ++ credential_reads w ++ new) ++ rest)
      by (symmetry; destruct res as [[]|e]; exact Hrun).
    rewrite Hacts. split; [exact Hprefix|]. split.
    + intros _ Hquiet. destruct res as [[]|e]; [apply Hres|].
      destruct Hres as (pre & a & -> & Ha & _).
      rewrite !existsb_app in Hquiet. cbn [existsb sign_in_step_raised] in Hquiet.
      rewrite Ha in Hquiet. rewrite ?orb_true_r in Hquiet. discriminate.
    + assert (R1 : existsb sign_in_step_raised
                     (((entry_history r s page ++ n1)
                       ++ [EvIsVisible sign_in_button (Return true)])
                      ++ credential_reads w) = false).
      { apply sign_in_step_raised_none. now rewrite existsb_app, S1. }
      rewrite <- (app_assoc _ (credential_reads w ++ new) rest).
      rewrite <- (app_assoc (credential_reads w) new rest).
      rewrite (app_assoc _ (credential_reads w) (new ++ rest)).
      rewrite (after_failed_step_app _ _ R1).
      destruct res as [[]|e].
      * destruct Hres as [Hquiet _].
        rewrite (after_failed_step_app _ _ Hquiet).
        rewrite after_failed_step_none;
          [reflexivity | now apply sign_in_step_raised_none].
      * destruct Hres as (pre & a & -> & Ha & Hpre).
        rewrite <- app_assoc, (after_failed_step_app _ _ Hpre).
        cbn [app after_failed_step sign_in_step_raised]. rewrite Ha. exact Frest.
  - destruct (unseen_sign_in_run w (w_environ w) r s b Hseen) as (_ & _ & Hnone).
    rewrite (sign_in_actions_none _ Hnone). split; [now eexists|].
    split; [discriminate|].
    rewrite after_failed_step_none;
      [reflexivity | now apply sign_in_step_raised_none].
Qed.

Lemma sign_in_follows_protocol_witness :
  sign_in_actions
    (fst (run (compose_email "a@b.com" "Hi" "Hello there")
            MoreSamples.credentials_set))
  = sign_in_protocol "me@x.org" "hunter2".
Proof.
  assert (Hemail : "me@x.org" <> EmptyString) by discriminate.
  assert (Hpassword : "hunter2" <> EmptyString) by discriminate.
  destruct (sign_in_follows_protocol MoreSamples.credentials_set
              "a@b.com" "Hi" "Hello there" "me@x.org" "hunter2"
              eq_refl eq_refl Hemail Hpassword)
    as (_ & Hall & _).
  apply Hall; vm_compute; reflexivity.
Defined.

(** ** The report of the field-fill sequencer *)

(** X5.  When a keyboard action raises, [do_compose_email] attempts nothing
    further, and no earlier keyboard action raised.  When what it raised is
    an [Exception], the raising action is followed only by the error log
    line, and [do_compose_email] returns the outcome whose summary is [Error
    composing email for <recipient>.] and whose detailed message is that
    summary followed by [Error: ] and the text of the exception.  When it is
    not, the raising action is the last event and [do_compose_email] raises
    that exception, with no log line and no outcome. *)
Theorem typing_failure_is_reported :
  forall (w : World) (page : Page) (recipient subject body : string) (tr : Trace),
  exists new out,
    do_compose_email page recipient subject body w tr = (tr ++ new, out) /\
    (existsb keyboard_raised new = true ->
     exists pre a e,
       let error := ("Error composing email for " ++ recipient ++ ".")%string in
       is_keyboard_action a = true /\
       existsb keyboard_raised pre = false /\
       if is_exception e
       then new = pre ++ [EvAct a (Raise e);
                          EvLog ERROR (error ++ " Error details: " ++ str e)%string] /\
            out = Return (mkOutcome error (error ++ " Error: " ++ str e)%string)
       else new = pre ++ [EvAct a (Raise e)] /\ out = Raise e).
Proof.
  intros w page r s b tr.
  destruct (do_compose_email_ends w page r s b tr)
    as (new & out & Hrun & _ & _ & _ & Hout).
  exists new, out. split; [exact Hrun|]. intros Hraised.
  destruct out as [res|e].
  - rewrite Hraised in Hout.
    destruct Hout as (pre & a & e & -> & Ha & Hexc & Hpre & ->).
    exists pre, a, e. cbv zeta. rewrite Hexc. repeat split; assumption.
  - destruct Hout as (Hexc & pre & a & -> & Ha & Hpre).
    exists pre, a, e. cbv zeta. rewrite Hexc. repeat split; assumption.
Qed.

Lemma typing_failure_is_reported_witness :
  (exists res,
     snd (do_compose_email (PageRef 0) "a@b.com" "Hi" "Hello there"
            MoreSamples.typing_times_out []) = Return res /\
     detailed_message res =
       "Error composing email for a@b.com. Error: Timeout 30000ms exceeded.") /\
  snd (do_compose_email (PageRef 0) "a@b.com" "Hi" "Hello there"
         MoreSamples.typing_cancelled [])
  = Raise (OtherBaseException "CancelledError").
Proof.
  split.
  - destruct (typing_failure_is_reported MoreSamples.typing_times_out (PageRef 0)
                "a@b.com" "Hi" "Hello there" []) as (new & out & Hrun & Hfail).
    destruct Hfail as (pre & a & e & _ & _ & Hend).
    + vm_compute in Hrun. injection Hrun as Hnew _. subst new. reflexivity.
    + rewrite Hrun. cbn [snd]. vm_compute in Hrun. injection Hrun as Hnew Hout.
      destruct (is_exception e); destruct Hend as [Hend ->]; [|discriminate].
      eexists. split; [reflexivity|]. cbn [detailed_message].
      injection Hout as Hdetail. rewrite <- Hdetail. reflexivity.
  - destruct (typing_failure_is_reported MoreSamples.typing_cancelled (PageRef 0)
                "a@b.com" "Hi" "Hello there" []) as (new & out & Hrun & Hfail).
    destruct Hfail as (pre & a & e & _ & _ & Hend).
    + vm_compute in Hrun. injection Hrun as Hnew _. subst new. reflexivity.
    + rewrite Hrun. cbn [snd]. vm_compute in Hrun. injection Hrun as Hnew Hout.
      destruct (is_exception e); destruct Hend as [Hend ->]; [discriminate|].
      exact (eq_sym Hout).
Defined.

(** ** Slices *)

Lemma slice_to_code_points (n : nat) (s : string) :
  code_points (slice_to n s) = Nat.min n (code_points s).
Proof.
  revert n. induction s as [|c s IH]; intros n; cbn [slice_to code_points].
  - now rewrite Nat.min_0_r.
  - destruct (is_continuation c) eqn:Hc.
    + cbn [code_points]. rewrite Hc. apply IH.
    + destruct n as [|n]; [reflexivity|].
      cbn [code_points]. rewrite Hc, IH. reflexivity.
Qed.

Lemma slice_to_cut (n : nat) (s : string) :
  exists hidden,
    s = (slice_to n s ++ hidden)%string /\ at_boundary hidden = true.
Proof.
  revert n. induction s as [|c s IH]; intros n; cbn [slice_to].
  - now exists EmptyString.
  - destruct (is_continuation c) eqn:Hc.
    + destruct (IH n) as (hidden & H & Hb). exists hidden.
      split; [cbn [String.append]; now rewrite <- H | exact Hb].
    + destruct n as [|n].
      * exists (String c s). split; [reflexivity|]. cbn. now rewrite Hc.
      * destruct (IH n) as (hidden & H & Hb). exists hidden.
        split; [cbn [String.append]; now rewrite <- H | exact Hb].
Qed.

(** X10.  After a fill in which no keyboard action raised, the whole body
    was typed and [do_compose_email] returns; the detailed message of its
    outcome quotes only the first 50 code points of the body (all of it when
    it has fewer), cut where a code point begins and always followed by three
    dots, after the summary and the subject in full. *)
Theorem report_truncates_body :
  forall (w : World) (page : Page) (recipient subject body : string) (tr : Trace),
  exists new out,
    do_compose_email page recipient subject body w tr = (tr ++ new, out) /\
    (existsb keyboard_raised new = false ->
     In (EvAct (keyboard_type body) (Return tt)) new /\
     exists res shown hidden,
       out = Return res /\
       body = (shown ++ hidden)%string /\
       code_points shown = Nat.min 50 (code_points body) /\
       at_boundary hidden = true /\
       detailed_message res =
         (summary_message res ++ " Subject: '" ++ subject ++ "', Body: '"
          ++ shown ++ "...'")%string).
Proof.
  intros w page r s b tr.
  destruct (do_compose_email_ends w page r s b tr)
    as (new & out & Hrun & _ & _ & _ & Hout).
  exists new, out. split; [exact Hrun|]. intros Hquiet.
  destruct out as [res|e].
  - rewrite Hquiet in Hout. destruct Hout as (_ & (pre & ->) & ->). split.
    + apply in_or_app. right. now left.
    + destruct (slice_to_cut 50 b) as (hidden & Hb & Hcut).
      exists (mkOutcome (success_summary r) (success_detail r s b)),
        (slice_to 50 b), hidden.
      split; [reflexivity|]. split; [exact Hb|].
      split; [apply slice_to_code_points|]. split; [exact Hcut | reflexivity].
  - destruct Hout as (_ & pre & a & -> & Ha & _).
    rewrite (keyboard_raised_last pre a e Ha) in Hquiet. discriminate.
Qed.

Lemma report_truncates_body_witness :
  let body := MoreSamples.e_acute 60 in
  exists res shown hidden,
    snd (do_compose_email (PageRef 0) "a@b.com" "Hi" body Sample.signed_in [])
    = Return res /\
    body = (shown ++ hidden)%string /\
    code_points shown = 50 /\
    detailed_message res =
      (summary_message res ++ " Subject: '" ++ "Hi" ++ "', Body: '"
       ++ shown ++ "...'")%string.
Proof.
  intros body.
  destruct (report_truncates_body Sample.signed_in (PageRef 0) "a@b.com" "Hi"
              body []) as (new & out & Hrun & Hreport).
  destruct Hreport as (_ & res & shown & hidden & -> & Hbody & Hpoints & _ & Hdetail).
  - vm_compute in Hrun. injection Hrun as Hnew _. subst new. reflexivity.
  - exists res, shown, hidden. rewrite Hrun. repeat split; assumption.
Defined.

(** ** The causes of a failure *)

(** X3.  Every failure of a run that obtained a page has one of six causes:
    a call other than a keyboard action raised; the visibility check raised;
    a credential was unset or empty; a keyboard action raised an [Exception]
    and [do_compose_email] reported it; a keyboard action raised what is no
    [Exception] and [do_compose_email] let it through; or the success
    summary held the marker.  When the exception of that cause is an
    [Exception], the handler for it logs its message, notifies it at severity
    [ERROR] and raises; when it is not, the run ends where the cause arose
    and the cause itself reaches the caller. *)
Theorem failures_are_classified :
  forall (w : World) (recipient subject body : string) (page : Page)
         (tr : Trace) (e : Exn),
    w_get_current_page w [start_log recipient subject] = Return (Some page) ->
    run (compose_email recipient subject body) w = (tr, Raise e) ->
    exists t cause,
      TryFailure w recipient subject body t cause /\
      if is_exception cause
      then exists rn,
             let m := handler_message w cause in
             tr = t ++ [EvLog ERROR m; EvAct (notify_user m MessageType.ERROR) rn] /\
             e = match rn with Return _ => ValueError m | Raise e' => e' end
      else tr = t /\ e = cause.
Proof.
  intros w r s b page tr e Hpage Hrun.
  destruct (run_failure w r s b page tr e Hpage Hrun)
    as (t & cause & Hcause & _ & Hhandled).
  exists t, cause. split; [exact Hcause|].
  exact (handled_raises w cause e t tr Hhandled).
Qed.

Lemma failures_are_classified_witness :
  let w := MoreSamples.compose_window_times_out in
  exists t cause rn,
    TryFailure w "a@b.com" "Hi" "Hello there" t cause /\
    is_exception cause = true /\
    fst (run (compose_email "a@b.com" "Hi" "Hello there") w) =
    t ++ [EvLog ERROR (handler_message w cause);
          EvAct (notify_user (handler_message w cause) MessageType.ERROR) rn].
Proof.
  intros w.
  assert (Hrun : run (compose_email "a@b.com" "Hi" "Hello there") w =
                 (fst (run (compose_email "a@b.com" "Hi" "Hello there") w),
                  Raise (ValueError "Timeout error: Timeout 30000ms exceeded.. The page might be loading slowly or the element might not be present.")))
    by (vm_compute; reflexivity).
  destruct (failures_are_classified w "a@b.com" "Hi" "Hello there" (PageRef 0)
              _ _ eq_refl Hrun) as (t & cause & Hcause & Hend).
  destruct (is_exception cause) eqn:Hexc.
  - destruct Hend as (rn & Htr & _).
    exists t, cause, rn. split; [exact Hcause|]. split; [exact Hexc | exact Htr].
  - destruct Hend as [_ He]. subst cause. discriminate Hexc.
Defined.

(** ** The wording of the failure message *)

(** X4.  A failure of a run that obtained a page either has a failure
    message, logged and notified at severity [ERROR] by a handler, or is an
    exception that is no [Exception], raised by the last call of the run and
    not notified.  The failure message begins with [Timeout error: ] only
    when the last call before the handler, which is not a keyboard action,
    raised Playwright's [TimeoutError], and it then quotes the text of that
    exception; every other failure message begins with [Failed to compose
    email. Error: ].  In particular a failure while typing that
    [do_compose_email] reported, timeouts included, is never worded as a
    timeout. *)
Theorem timeout_wording :
  forall (w : World) (recipient subject body : string) (page : Page)
         (tr : Trace) (e : Exn),
    w_get_current_page w [start_log recipient subject] = Return (Some page) ->
    run (compose_email recipient subject body) w = (tr, Raise e) ->
    (exists t m rn,
       tr = t ++ [EvLog ERROR m; EvAct (notify_user m MessageType.ERROR) rn] /\
       (if String.prefix "Timeout error: " m
        then exists pre ev msg,
               t = pre ++ [ev] /\
               raised_with ev = Some (PlaywrightTimeoutError msg) /\
               keyboard_raised ev = false /\
               m = ("Timeout error: " ++ msg
                    ++ ". The page might be loading slowly or the element might not be present.")%string
        else String.prefix "Failed to compose email. Error: " m = true) /\
       (forall pre a e0 line,
          is_keyboard_action a = true ->
          t = pre ++ [EvAct a (Raise e0); EvLog ERROR line] ->
          String.prefix "Timeout error: " m = false)) \/
    (is_exception e = false /\
     existsb is_error_notification tr = false /\
     exists pre ev, tr = pre ++ [ev] /\ raised_with ev = Some e).
Proof.
  intros w r s b page tr e Hpage Hrun.
  destruct (run_failure w r s b page tr e Hpage Hrun)
    as (t & cause & Hcause & Hquiet & Hhandled).
  apply handled_raises in Hhandled.
  destruct (is_exception cause) eqn:Hexc.
  2: { right. destruct Hhandled as [-> ->].
       split; [exact Hexc|]. split; [exact Hquiet|].
       exact (interruption_last_call w r s b t cause Hcause Hexc). }
  left. destruct Hhandled as (rn & Htr & _).
  exists t, (handler_message w cause), rn. split; [exact Htr|].
  assert (Htimeout : forall msg,
             String.prefix "Timeout error: "
               (handler_message w (PlaywrightTimeoutError msg)) = true).
  { intros msg. unfold handler_message. apply prefix_append. }
  assert (Hgeneric : forall cause,
             (forall msg, cause <> PlaywrightTimeoutError msg) ->
             String.prefix "Timeout error: " (handler_message w cause) = false /\
             String.prefix "Failed to compose email. Error: "
               (handler_message w cause) = true).
  { intros [msg|msg|msg|msg] Hother; [now elim (Hother msg)|..];
      (split; [reflexivity | unfold handler_message; apply prefix_append]). }
  assert (Hvalue : forall msg,
             String.prefix "Timeout error: " (handler_message w (ValueError msg))
             = false /\
             String.prefix "Failed to compose email. Error: "
               (handler_message w (ValueError msg)) = true)
    by (intros msg; apply Hgeneric; discriminate).
  clear Htr Hrun Hquiet. revert Hexc.
  destruct Hcause as [pre a e0 Ha | pre e0 | pre Hc | pre a e0 Ha He0
                     | pre a e0 Ha He0 | pre Hm]; intros Hexc.
  - split.
    + destruct e0 as [msg|msg|msg|msg];
        [rewrite Htimeout
        | destruct (Hgeneric (ValueError msg)) as [-> ->]; [discriminate | reflexivity]
        | destruct (Hgeneric (OtherException msg)) as [-> ->];
          [discriminate | reflexivity]
        | discriminate Hexc].
      exists pre, (EvAct a (Raise (PlaywrightTimeoutError msg))), msg.
      repeat split. destruct a; try reflexivity; discriminate.
    + intros pre' a' e' line _ H. symmetry in H.
      apply last_of_two in H. discriminate.
  - split.
    + destruct e0 as [msg|msg|msg|msg];
        [rewrite Htimeout
        | destruct (Hgeneric (ValueError msg)) as [-> ->]; [discriminate | reflexivity]
        | destruct (Hgeneric (OtherException msg)) as [-> ->];
          [discriminate | reflexivity]
        | discriminate Hexc].
      exists pre, (EvIsVisible sign_in_button (Raise (PlaywrightTimeoutError msg))), msg.
      repeat split.
    + intros pre' a' e' line _ H. symmetry in H.
      apply last_of_two in H. discriminate.
  - destruct (Hvalue configuration_error) as [-> ->]. now split.
  - destruct (Hvalue (error_summary r ++ " Error: " ++ str e0)%string) as [-> ->].
    now split.
  - congruence.
  - destruct (Hvalue (success_detail r s b)) as [-> ->]. now split.
Qed.

Lemma timeout_wording_witness :
  let w := MoreSamples.typing_times_out in
  exists t m rn,
    fst (run (compose_email "a@b.com" "Hi" "Hello there") w) =
    t ++ [EvLog ERROR m; EvAct (notify_user m MessageType.ERROR) rn] /\
    String.prefix "Timeout error: " m = false.
Proof.
  intros w.
  assert (Hrun : run (compose_email "a@b.com" "Hi" "Hello there") w =
                 (fst (run (compose_email "a@b.com" "Hi" "Hello there") w),
                  Raise (ValueError (handler_message w
                           (ValueError "Error composing email for a@b.com. Error: Timeout 30000ms exceeded.")))))
    by (vm_compute; reflexivity).
  destruct (timeout_wording w "a@b.com" "Hi" "Hello there" (PageRef 0)
              _ _ eq_refl Hrun)
    as [(t & m & rn & Htr & _ & Htyping)|(Hexc & _)]; [|discriminate Hexc].
  exists t, m, rn. split; [exact Htr|].
  clear Hrun. vm_compute in Htr.
  apply (f_equal (@rev Event)) in Htr. rewrite rev_app_distr in Htr.
  cbn [rev app] in Htr. injection Htr; intros.
  match goal with
  | H : _ = rev t |- _ =>
      apply (f_equal (@rev Event)) in H; rewrite rev_involutive in H;
      cbn [rev app] in H; rename H into Ht
  end.
  eapply (Htyping _ (keyboard_type "a@b.com")); [reflexivity|].
  rewrite <- Ht.
  match goal with
  | |- ?l = _ => transitivity (firstn (length l - 2) l ++ skipn (length l - 2) l)
  end; [symmetry; apply firstn_skipn|].
  cbn [length Nat.sub firstn skipn]. reflexivity.
Defined.

(** ** From the compose window to the report *)

Lemma emits_before_typing : emits before_typing (open_compose_window "compose_email").
Proof.
  unfold open_compose_window, navigate_to_gmail, sign_in_if_required, sign_in,
    open_compose.
  emits_structure; reflexivity.
Qed.

Lemma open_compose_returns (w : World) (t t' : Trace) (u : unit) :
  open_compose w t = (t', Return u) -> t' = t ++ compose_window_open.
Proof.
  unfold_skill. repeat step_action; try discriminate.
  intros H. injection H as <- _. unfold compose_window_open. now norm_trace.
Qed.

Lemma open_compose_window_returns (w : World) (fn : string) (t t' : Trace) (u : unit) :
  open_compose_window fn w t = (t', Return u) ->
  exists t2, t' = t2 ++ compose_window_open.
Proof.
  unfold open_compose_window. intros H.
  apply bind_returns in H as (a & t1 & _ & H).
  apply bind_returns in H as (a' & t2 & _ & H).
  exists t2. now apply open_compose_returns in H.
Qed.

Lemma keyboard_actions_app (l l' : Trace) :
  keyboard_actions (l ++ l') = keyboard_actions l ++ keyboard_actions l'.
Proof.
  induction l as [|ev l IH]; [reflexivity|].
  destruct ev as [| | | | |[] rn]; cbn [app keyboard_actions]; auto;
    now rewrite IH.
Qed.

Lemma keyboard_actions_none (P : Event -> bool) (l : Trace) :
  (forall ev, P ev = true -> is_keyboard_event ev = false) ->
  forallb P l = true -> keyboard_actions l = [].
Proof.
  intros HP. induction l as [|ev l IH]; [reflexivity|].
  cbn [forallb]. intros H. apply andb_true_iff in H as [Hev Hl].
  apply HP in Hev.
  destruct ev as [| | | | |[] rn]; cbn [keyboard_actions]; auto; discriminate.
Qed.

Lemma before_typing_quiet (ev : Event) :
  before_typing ev = true ->
  is_keyboard_event ev = false /\ is_notification ev = false /\
  late_failure ev = false.
Proof.
  destruct ev as [| | | | |[] [|e]]; try discriminate; try (now repeat split).
  cbn. intros H. apply String.eqb_eq in H. subst. now repeat split.
Qed.

Lemma typing_quiet (ev : Event) :
  typing ev = true -> is_notification ev = false /\ late_failure ev = false.
Proof.
  destruct ev as [| | | | |[] [|e]]; try discriminate; now repeat split.
Qed.

(** How a run that obtained a page goes on: the window does not open, or
    [do_compose_email] is called on the open window and what it returns or
    raises is inspected. *)
Lemma typing_split (w : World) (r s b : string) (page : Page) :
  w_get_current_page w [start_log r s] = Return (Some page) ->
  (exists n e,
      forallb before_typing n = true /\
      run (compose_email r s b) w = handled e w (entry_history r s page ++ n)) \/
  (exists n new out,
      forallb before_typing n = true /\
      forallb typing new = true /\
      hand_over r s w = Some (page, entry_history r s page ++ n) /\
      (exists pre, entry_history r s page ++ n = pre ++ compose_window_open) /\
      do_compose_email page r s b w (entry_history r s page ++ n)
        = ((entry_history r s page ++ n) ++ new, out) /\
      run (compose_email r s b) w =
      match fill_and_report "compose_email" page r s b w
              (entry_history r s page ++ n) with
      | (t1, Return msg) => (t1, Return msg)
      | (t1, Raise e) => handled e w t1
      end).
Proof.
  intros Hpage. rewrite compose_email_run, Hpage. fold (entry_history r s page).
  destruct (emits_before_typing w (entry_history r s page)) as (n & En & Fn).
  destruct (open_compose_window _ w _) as [t0 [[]|e]] eqn:Hopen;
    cbn [fst] in En; subst t0.
  - right.
    destruct (do_compose_email_ends w page r s b (entry_history r s page ++ n))
      as (new & out & Hrun & Fnew & _).
    exists n, new, out. repeat split; try assumption.
    + unfold hand_over.
      cbv beta iota zeta delta [get_current_page]. rewrite Hpage.
      cbn [app]. fold (start_log r s). fold (entry_history r s page).
      now rewrite Hopen.
    + now apply open_compose_window_returns in Hopen.
  - left. now exists n, e.
Qed.

Lemma before_typing_no_keys (n : Trace) :
  forallb before_typing n = true -> keyboard_actions n = [].
Proof.
  apply keyboard_actions_none. intros ev H. now apply before_typing_quiet in H.
Qed.

Lemma reporting_no_keys (n : Trace) :
  forallb reporting n = true -> keyboard_actions n = [].
Proof.
  apply keyboard_actions_none.
  intros [| | | | |[] ?]; (discriminate || reflexivity).
Qed.

(** The handlers type nothing. *)
Lemma handled_keys (w : World) (e : Exn) (t : Trace) :
  keyboard_actions (fst (handled e w t)) = keyboard_actions t.
Proof.
  destruct (emits_reporting e w t) as (rest & -> & F).
  now rewrite keyboard_actions_app, (reporting_no_keys rest F), app_nil_r.
Qed.

(** The events by which [fill_and_report] and the handlers continue a
    history hold no keyboard action. *)
Lemma report_no_keys (w : World) (fn : string) (page : Page) (r s b : string)
    (t new : Trace) (out : Result Outcome) :
  do_compose_email page r s b w t = (t ++ new, out) ->
  keyboard_actions
    (fst (match fill_and_report fn page r s b w t with
          | (t1, Return msg) => (t1, Return msg)
          | (t1, Raise e) => handled e w t1
          end))
  = keyboard_actions t ++ keyboard_actions new.
Proof.
  intros Hrun. destruct out as [res|e].
  - rewrite (fill_and_report_run w fn page r s b t _ res Hrun).
    destruct (contains "Error" (summary_message res)).
    + now rewrite handled_keys, keyboard_actions_app.
    + cbv zeta. repeat step_action; rewrite ?handled_keys; cbn [fst];
        rewrite !keyboard_actions_app; cbn; now rewrite !app_nil_r.
  - rewrite (fill_and_report_interrupted w fn page r s b t _ e Hrun).
    now rewrite handled_keys, keyboard_actions_app.
Qed.

(** X6.  The keyboard actions of a run of [compose_email] are an initial
    segment of: type recipient, Tab, type subject, Tab, type body.  When
    there is any, the click on Compose and the wait for [New Message] have
    returned before, and nothing was typed before them. *)
Theorem typing_only_in_compose_window :
  forall (w : World) (recipient subject body : string),
    let tr := fst (run (compose_email recipient subject body) w) in
    (exists rest,
        keyboard_actions tr ++ rest = fill_protocol recipient subject body) /\
    (keyboard_actions tr <> [] ->
     exists pre post,
       tr = pre ++
            [EvAct (click (get_by_role "button" "Compose")) (Return tt);
             EvAct (wait_for (get_by_text "New Message" true) "visible") (Return tt);
             EvLog INFO "Calling do_compose_email function..."] ++ post /\
       keyboard_actions pre = []).
Proof.
  intros w r s b tr. subst tr.
  destruct (w_get_current_page w [start_log r s]) as [[page|]|e] eqn:Hpage.
  2,3: rewrite compose_email_blocks, Hpage; cbn [fst keyboard_actions start_log];
       split; [now eexists | intros H; now elim H].
  destruct (typing_split w r s b page Hpage)
    as [(n & e & Fn & ->)|(n & new & out & Fn & Fnew & _ & (pre & Hopen) & Hrun & ->)].
  - rewrite handled_keys.
    rewrite !keyboard_actions_app, (before_typing_no_keys n Fn).
    cbn. split; [now eexists | intros H; now elim H].
  - rewrite (report_no_keys w _ page r s b _ new out Hrun).
    rewrite keyboard_actions_app, (before_typing_no_keys n Fn). cbn [app].
    split.
    + destruct (do_compose_email_ends w page r s b (entry_history r s page ++ n))
        as (new' & out' & Hrun' & _ & Hprefix & _).
      rewrite Hrun in Hrun'. injection Hrun' as Hnew _.
      apply app_inv_head in Hnew. now subst new'.
    + intros _.
      assert (Hpre : keyboard_actions pre = []).
      { assert (H : keyboard_actions (entry_history r s page ++ n) = [])
          by (rewrite keyboard_actions_app, (before_typing_no_keys n Fn);
              reflexivity).
        rewrite Hopen, keyboard_actions_app in H.
        now apply app_eq_nil in H. }
      destruct (emits_fill_and_report "compose_email" page r s b w
                  (entry_history r s page ++ n)) as (post & Epost & _).
      destruct (fill_and_report "compose_email" page r s b w
                  (entry_history r s page ++ n)) as [t1 [msg|e]] eqn:Hfill;
        cbn [fst] in Epost; subst t1.
      * exists pre, post. split; [|exact Hpre].
        cbn [fst]. rewrite Hopen. unfold compose_window_open.
        now rewrite <- app_assoc.
      * destruct (emits_reporting e w ((entry_history r s page ++ n) ++ post))
          as (rest & -> & _).
        exists pre, (post ++ rest). split; [|exact Hpre].
        rewrite Hopen. unfold compose_window_open.
        now rewrite <- !app_assoc.
Qed.

Lemma typing_only_in_compose_window_witness :
  exists pre post,
    fst (run (compose_email "a@b.com" "Hi" "Hello there") Sample.signed_in) =
    pre ++ compose_window_open ++ post /\
    keyboard_actions pre = [].
Proof.
  destruct (typing_only_in_compose_window Sample.signed_in
              "a@b.com" "Hi" "Hello there") as (_ & Hafter).
  apply Hafter. vm_compute. discriminate.
Defined.

Lemma before_typing_no_key_raised (n : Trace) :
  forallb before_typing n = true -> existsb keyboard_raised n = false.
Proof.
  apply forallb_existsb. intros ev H. apply before_typing_quiet in H as [H _].
  destruct ev as [| | | | |[] [|e]]; (reflexivity || discriminate).
Qed.

(** Splits an equation between pairs without touching its sides. *)
Ltac split_pair H :=
  let Ht := fresh "Ht" in
  let Ho := fresh "Ho" in
  pose proof (f_equal fst H) as Ht; pose proof (f_equal snd H) as Ho;
  cbn [fst snd] in Ht, Ho; clear H; subst.

(** An outcome without a marker comes from a fill in which no keyboard
    action raised, and all five were performed. *)
Lemma unmarked_outcome (w : World) (page : Page) (r s b : string)
    (t new : Trace) (res : Outcome) :
  do_compose_email page r s b w t = (t ++ new, Return res) ->
  contains "Error" (summary_message res) = false ->
  existsb keyboard_raised new = false /\
  keyboard_actions new = fill_protocol r s b /\
  summary_message res = success_summary r.
Proof.
  intros Hrun Hmark.
  destruct (do_compose_email_ends w page r s b t)
    as (new' & out & Hrun' & _ & _ & _ & Hout).
  rewrite Hrun in Hrun'. injection Hrun' as Hnew <-.
  apply app_inv_head in Hnew. subst new'.
  destruct (existsb keyboard_raised new).
  - destruct Hout as (pre & a & e & _ & _ & _ & _ & ->).
    cbn [summary_message] in Hmark. rewrite error_summary_marked in Hmark.
    discriminate.
  - destruct Hout as (Hacts & _ & ->). now repeat split.
Qed.

(** A history the handlers were given holds no failure of a reporting call
    when they leave it, if it held none before. *)
Lemma handled_no_late_failure (w : World) (e : Exn) (t : Trace) :
  existsb late_failure t = false ->
  existsb late_failure (fst (handled e w t)) = false.
Proof.
  intros Ht. destruct (emits_reporting e w t) as (rest & -> & F).
  rewrite existsb_app, Ht. cbn [orb].
  eapply forallb_existsb; [|exact F].
  intros [| | | | |[] [|?]]; try discriminate; try reflexivity;
    destruct message_type; (discriminate || reflexivity).
Qed.

(** What leaves the handlers, whatever the result. *)
Lemma handled_raises_or_returns (w : World) (cause : Exn) (t tr : Trace)
    (out : Result string) :
  handled cause w t = (tr, out) ->
  if is_exception cause
  then exists rn,
         let m := handler_message w cause in
         tr = t ++ [EvLog ERROR m; EvAct (notify_user m MessageType.ERROR) rn] /\
         out = match rn with
               | Return _ => Raise (ValueError m)
               | Raise e => Raise e
               end
  else tr = t /\ out = Raise cause.
Proof.
  unfold handled. destruct (is_exception cause).
  - rewrite on_exception_run. cbv zeta. intros H. injection H as <- <-.
    eexists. split; reflexivity.
  - intros H. injection H as <- <-. now split.
Qed.

(** The handlers press no key. *)
Lemma handled_key_raised (w : World) (e : Exn) (t : Trace) :
  existsb keyboard_raised (fst (handled e w t)) = existsb keyboard_raised t.
Proof.
  destruct (emits_reporting e w t) as (rest & -> & F).
  rewrite existsb_app.
  replace (existsb keyboard_raised rest) with false; [apply orb_false_r|].
  symmetry. eapply forallb_existsb; [|exact F].
  intros [| | | | |[] [|?]]; (discriminate || reflexivity).
Qed.

(** X7.  When [compose_email] returns, the five keyboard actions were all
    performed and none raised, and the history ends with the log line of the
    returned message, its notification at severity [ACTION], the only
    notification of the run, and the final screenshot, both returned. *)
Theorem returned_means_composed :
  forall (w : World) (recipient subject body msg : string) (tr : Trace),
    run (compose_email recipient subject body) w = (tr, Return msg) ->
    keyboard_actions tr = fill_protocol recipient subject body /\
    existsb keyboard_raised tr = false /\
    exists pre,
      tr = pre ++ [EvLog INFO msg;
                   EvAct (notify_user msg MessageType.ACTION) (Return tt);
                   EvAct (take_screenshots "compose_email_end") (Return tt)] /\
      existsb is_notification pre = false.
Proof.
  intros w r s b msg tr.
  destruct (w_get_current_page w [start_log r s]) as [[page|]|e] eqn:Hpage.
  2,3: rewrite compose_email_blocks, Hpage; discriminate.
  destruct (typing_split w r s b page Hpage)
    as [(n & e & Fn & ->)|(n & new & [res|e] & Fn & Fnew & _ & _ & Hrun & ->)].
  { intros H. now apply handled_never_returns in H. }
  2: { rewrite (fill_and_report_interrupted w _ page r s b _ _ e Hrun).
       intros H. now apply handled_never_returns in H. }
  rewrite (fill_and_report_run w _ page r s b _ _ res Hrun).
  destruct (contains "Error" (summary_message res)) eqn:Hmark.
  { intros H. now apply handled_never_returns in H. }
  destruct (unmarked_outcome w page r s b _ new res Hrun Hmark)
    as (Hquiet & Hacts & _).
  cbv zeta. repeat step_action;
    try (intros H; now apply handled_never_returns in H).
  intros H. split_pair H. injection Ho as <-.
  assert (Nn : existsb is_notification n = false)
    by (eapply forallb_existsb; [|exact Fn];
        intros ev Hev; now apply before_typing_quiet in Hev).
  assert (Nnew : existsb is_notification new = false)
    by (eapply forallb_existsb; [|exact Fnew];
        intros ev Hev; now apply typing_quiet in Hev).
  split; [|split].
  - rewrite !keyboard_actions_app, (before_typing_no_keys n Fn), Hacts. reflexivity.
  - rewrite !existsb_app, (before_typing_no_key_raised n Fn), Hquiet. reflexivity.
  - exists ((entry_history r s page ++ n) ++ new). split.
    + rewrite <- !app_assoc. reflexivity.
    + rewrite !existsb_app, Nn, Nnew. reflexivity.
Qed.

Lemma returned_means_composed_witness :
  keyboard_actions
    (fst (run (compose_email "a@b.com" "Hi" "Hello there") Sample.signed_in))
  = fill_protocol "a@b.com" "Hi" "Hello there".
Proof.
  assert (Hrun : run (compose_email "a@b.com" "Hi" "Hello there") Sample.signed_in
                 = (fst (run (compose_email "a@b.com" "Hi" "Hello there")
                           Sample.signed_in),
                    Return "Email composed successfully for a@b.com."))
    by (vm_compute; reflexivity).
  pose proof (returned_means_composed Sample.signed_in
                "a@b.com" "Hi" "Hello there" _ _ Hrun) as H.
  exact (proj1 H).
Defined.

(** X8.  When the notification of the success or the final screenshot
    raises, [compose_email] raises although the fill is complete: the five
    keyboard actions were performed and none raised.  When the exception of
    the reporting call is an [Exception], the handler for it logs, notifies
    and raises; when it is not, the reporting call is the last event of the
    run and its exception reaches the caller as it is. *)
Theorem unreported_success_is_raised :
  forall (w : World) (recipient subject body : string)
         (tr : Trace) (out : Result string),
    run (compose_email recipient subject body) w = (tr, out) ->
    existsb late_failure tr = true ->
    keyboard_actions tr = fill_protocol recipient subject body /\
    existsb keyboard_raised tr = false /\
    exists pre ev cause,
      late_failure ev = true /\
      raised_with ev = Some cause /\
      if is_exception cause
      then exists rn,
             let m := handler_message w cause in
             tr = pre ++ [ev; EvLog ERROR m;
                          EvAct (notify_user m MessageType.ERROR) rn] /\
             out = match rn with
                   | Return _ => Raise (ValueError m)
                   | Raise e => Raise e
                   end
      else tr = pre ++ [ev] /\ out = Raise cause.
Proof.
  intros w r s b tr out.
  destruct (w_get_current_page w [start_log r s]) as [[page|]|e] eqn:Hpage.
  2,3: rewrite compose_email_blocks, Hpage; intros H; injection H as <- <-;
       discriminate.
  assert (Hentry : existsb late_failure (entry_history r s page) = false)
    by reflexivity.
  destruct (typing_split w r s b page Hpage)
    as [(n & e & Fn & ->)|(n & new & [res|e] & Fn & Fnew & _ & _ & Hrun & ->)].
  all: assert (Ln : existsb late_failure n = false)
         by (eapply forallb_existsb; [|exact Fn];
             intros ev Hev; now apply before_typing_quiet in Hev).
  { intros H. split_pair H.
    rewrite handled_no_late_failure; [discriminate|].
    now rewrite !existsb_app, Hentry, Ln. }
  all: assert (Lnew : existsb late_failure new = false)
         by (eapply forallb_existsb; [|exact Fnew];
             intros ev Hev; now apply typing_quiet in Hev).
  2: { rewrite (fill_and_report_interrupted w _ page r s b _ _ e Hrun).
       intros H. split_pair H.
       rewrite handled_no_late_failure; [discriminate|].
       now rewrite !existsb_app, Hentry, Ln, Lnew. }
  rewrite (fill_and_report_run w _ page r s b _ _ res Hrun).
  destruct (contains "Error" (summary_message res)) eqn:Hmark.
  { intros H. split_pair H.
    rewrite handled_no_late_failure; [discriminate|].
    now rewrite !existsb_app, Hentry, Ln, Lnew. }
  destruct (unmarked_outcome w page r s b _ new res Hrun Hmark)
    as (Hquiet & Hacts & _).
  cbv zeta. repeat step_action.
  - intros H. split_pair H.
    rewrite !existsb_app, Hentry, Ln, Lnew. discriminate.
  - intros H _. pose proof (f_equal fst H) as Htr. cbn [fst] in Htr.
    split; [|split].
    + rewrite <- Htr, handled_keys, !keyboard_actions_app,
        (before_typing_no_keys n Fn), Hacts. reflexivity.
    + rewrite <- Htr, handled_key_raised, !existsb_app,
        (before_typing_no_key_raised n Fn), Hquiet. reflexivity.
    + exists ((((entry_history r s page ++ n) ++ new)
                ++ [EvLog INFO (summary_message res)])
               ++ [EvAct (notify_user (summary_message res) MessageType.ACTION)
                     (Return tt)]).
      exists (EvAct (take_screenshots "compose_email_end") (Raise e)), e.
      split; [reflexivity|]. split; [reflexivity|].
      apply handled_raises_or_returns in H.
      destruct (is_exception e); [|exact H].
      destruct H as (rn & -> & ->). exists rn.
      split; [now rewrite <- app_assoc | reflexivity].
  - intros H _. pose proof (f_equal fst H) as Htr. cbn [fst] in Htr.
    split; [|split].
    + rewrite <- Htr, handled_keys, !keyboard_actions_app,
        (before_typing_no_keys n Fn), Hacts. reflexivity.
    + rewrite <- Htr, handled_key_raised, !existsb_app,
        (before_typing_no_key_raised n Fn), Hquiet. reflexivity.
    + exists (((entry_history r s page ++ n) ++ new)
               ++ [EvLog INFO (summary_message res)]).
      exists (EvAct (notify_user (summary_message res) MessageType.ACTION) (Raise e)), e.
      split; [reflexivity|]. split; [reflexivity|].
      apply handled_raises_or_returns in H.
      destruct (is_exception e); [|exact H].
      destruct H as (rn & -> & ->). exists rn.
      split; [now rewrite <- app_assoc | reflexivity].
Qed.

Lemma unreported_success_is_raised_witness :
  keyboard_actions
    (fst (run (compose_email "a@b.com" "Hi" "Hello there")
            MoreSamples.notification_fails))
  = fill_protocol "a@b.com" "Hi" "Hello there" /\
  is_raise (snd (run (compose_email "a@b.com" "Hi" "Hello there")
                   MoreSamples.notification_fails)) = true.
Proof.
  destruct (unreported_success_is_raised MoreSamples.notification_fails
              "a@b.com" "Hi" "Hello there" _ _ (surjective_pairing _))
    as (Hacts & _ & pre & ev & cause & _ & _ & Hend).
  - vm_compute. reflexivity.
  - split; [exact Hacts|].
    destruct (is_exception cause).
    + destruct Hend as (rn & _ & ->). now destruct rn.
    + destruct Hend as (_ & ->). reflexivity.
Defined.

(** X11.  An error raised by [compose_email] is a [ValueError], with three
    exceptions that reach the caller as they are: the exception of
    [get_current_page]; the exception of the error notification in a
    handler; and an exception that is no [Exception], raised by the last call
    of the run. *)
Theorem raised_errors_are_value_errors :
  forall (w : World) (recipient subject body : string) (tr : Trace) (e : Exn),
    run (compose_email recipient subject body) w = (tr, Raise e) ->
    (exists m, e = ValueError m) \/
    tr = [start_log recipient subject; EvGetCurrentPage (Raise e)] \/
    (exists pre m, tr = pre ++ [EvAct (notify_user m MessageType.ERROR) (Raise e)]) \/
    (is_exception e = false /\
     exists pre ev, tr = pre ++ [ev] /\ raised_with ev = Some e).
Proof.
  intros w r s b tr e Hrun.
  destruct (w_get_current_page w [start_log r s]) as [[page|]|e'] eqn:Hpage.
  - destruct (run_failure w r s b page tr e Hpage Hrun)
      as (t & cause & Hcause & _ & Hhandled).
    apply handled_raises in Hhandled.
    destruct (is_exception cause) eqn:Hexc.
    + destruct Hhandled as (rn & -> & ->).
      destruct rn as [[]|e'].
      * left. now eexists.
      * right. right. left.
        exists (t ++ [EvLog ERROR (handler_message w cause)]), (handler_message w cause).
        rewrite <- app_assoc. reflexivity.
    + destruct Hhandled as [-> ->]. right. right. right.
      split; [exact Hexc|].
      exact (interruption_last_call w r s b t cause Hcause Hexc).
  - rewrite compose_email_blocks, Hpage in Hrun. injection Hrun as _ <-.
    left. now eexists.
  - rewrite compose_email_blocks, Hpage in Hrun. injection Hrun as <- <-.
    right. left. reflexivity.
Qed.

Lemma raised_errors_are_value_errors_witness :
  fst (run (compose_email "a@b.com" "Hi" "Hello there") MoreSamples.manager_fails)
  = [start_log "a@b.com" "Hi";
     EvGetCurrentPage (Raise (OtherException "browser not started"))].
Proof.
  destruct (raised_errors_are_value_errors MoreSamples.manager_fails
              "a@b.com" "Hi" "Hello there"
              (fst (run (compose_email "a@b.com" "Hi" "Hello there")
                      MoreSamples.manager_fails))
              (OtherException "browser not started") eq_refl)
    as [(m & Hm)|[Htr|[(pre & m & Htr)|(Hexc & _)]]].
  - discriminate Hm.
  - exact Htr.
  - reflexivity.
  - discriminate Hexc.
Defined.

(** ** The reads of the URL and the navigation, in order *)

Lemma beyond_navigation_filters (rest : Trace) :
  forallb beyond_navigation rest = true ->
  filter is_url_or_navigation rest = [].
Proof.
  induction rest as [|ev rest IH]; [reflexivity|].
  cbn [forallb]. intros H. apply andb_true_iff in H as [Hev Hrest].
  destruct ev as [| | | | |[] rn]; try discriminate; cbn; auto.
Qed.

Lemma emits_beyond_handled (e : Exn) : emits beyond_navigation (handled e).
Proof. apply emits_handled, emits_beyond_on_exception. Qed.

(** X9.  The reads of [page.url] and the navigations of a run, in the order
    in which they happen, are one of: none at all; one read, of a URL that
    contains [mail.google.com]; one read, of a URL that does not, and then
    the navigation to Gmail, which raises; or one read, of a URL that does
    not, the navigation to Gmail, which returns, and a second read.  So a run
    navigates at most once, always after it read a URL without
    [mail.google.com], and it reads the URL a second time only right after a
    navigation that returned. *)
Theorem at_most_one_navigation :
  forall (w : World) (recipient subject body : string),
    filter is_url_or_navigation
      (fst (run (compose_email recipient subject body) w)) = [] \/
    (exists u,
       filter is_url_or_navigation
         (fst (run (compose_email recipient subject body) w)) = [EvUrl u] /\
       contains "mail.google.com" u = true) \/
    (exists u e,
       filter is_url_or_navigation
         (fst (run (compose_email recipient subject body) w))
       = [EvUrl u; EvAct to_gmail (Raise e)] /\
       contains "mail.google.com" u = false) \/
    (exists u u',
       filter is_url_or_navigation
         (fst (run (compose_email recipient subject body) w))
       = [EvUrl u; EvAct to_gmail (Return tt); EvUrl u'] /\
       contains "mail.google.com" u = false).
Proof.
  intros w r s b.
  rewrite compose_email_blocks.
  destruct (w_get_current_page w [start_log r s]) as [[page|]|e];
    [|now left..].
  rewrite navigate_to_gmail_exact.
  destruct (w_act w (entry_history r s page)
              (take_screenshots "compose_email_start")) as [[]|e].
  2: { left.
       destruct (emits_beyond_handled e w
                   (entry_history r s page
                    ++ [EvAct (take_screenshots "compose_email_start") (Raise e)]))
         as (rest & -> & F).
       rewrite !filter_app, (beyond_navigation_filters rest F). reflexivity. }
  cbv zeta.
  set (t1 := entry_history r s page ++ [start_screenshot]).
  assert (Ht1 : filter is_url_or_navigation t1 = []) by reflexivity.
  destruct (contains "mail.google.com" (w_url w t1)) eqn:Hthere.
  - right. left. exists (w_url w t1). split; [|exact Hthere].
    destruct (emits_beyond_sign_in_check page r s b w (t1 ++ [EvUrl (w_url w t1)]))
      as (rest & -> & F).
    rewrite !filter_app, Ht1, (beyond_navigation_filters rest F). reflexivity.
  - set (t2 := t1 ++ [EvUrl (w_url w t1); EvLog INFO "Navigating to Gmail..."]).
    assert (Ht2 : filter is_url_or_navigation t2 = [EvUrl (w_url w t1)])
      by (unfold t2; rewrite filter_app, Ht1; reflexivity).
    destruct (w_act w t2 to_gmail) as [[]|e].
    + right. right. right.
      set (t3 := t2 ++ [EvAct to_gmail (Return tt)]).
      exists (w_url w t1), (w_url w t3). split; [|exact Hthere].
      destruct (emits_beyond_sign_in_check page r s b w
                  (t3 ++ [EvUrl (w_url w t3);
                          EvLog INFO ("Current URL after navigation: " ++ w_url w t3)]))
        as (rest & -> & F).
      unfold t3.
      rewrite !filter_app, Ht2, (beyond_navigation_filters rest F). reflexivity.
    + right. right. left.
      exists (w_url w t1), e. split; [|exact Hthere].
      destruct (emits_beyond_handled e w (t2 ++ [EvAct to_gmail (Raise e)]))
        as (rest & -> & F).
      rewrite !filter_app, Ht2, (beyond_navigation_filters rest F). reflexivity.
Qed.

Lemma at_most_one_navigation_witness :
  filter is_url_or_navigation
    (fst (run (compose_email "a@b.com" "Hi" "Hello there") Sample.signed_out))
  = [EvUrl "about:blank"; EvAct to_gmail (Return tt); EvUrl "about:blank"].
Proof.
  destruct (at_most_one_navigation Sample.signed_out "a@b.com" "Hi" "Hello there")
    as [H|[(u & H & _)|[(u & e & H & _)|(u & u' & H & _)]]];
    pose proof H as H'; vm_compute in H'; try discriminate H'.
  injection H' as <- <-. exact H.
Defined.
